(** * TrkGo: geofence test, fare computation, geofence editor and
      drop-off classification

    A shallow embedding of
      - [src/lib/geolocation.ts]            (module [Geolocation]),
      - the admin [GeofenceEditor] component (module [GeofenceEditor]),
      - [components/booking/BookingFlow.tsx] (module [BookingFlow]),
    followed by the properties established about them.

    A JavaScript [number] is modelled by a real number: arithmetic is
    exact, there is no NaN, no infinity and no rounding.  Comparisons
    are the boolean tests of the order of the reals. *)

From Stdlib Require Import String Reals Lra Lia ZArith Bool Arith List.
Import ListNotations.

(* ================================================================= *)
(** * Numbers and the [Math] object *)

Module JsNumber.
Local Open Scope R_scope.

(** A JavaScript [number], as an exact real.  The comparisons of the
    code are exact on its numbers too; its sums, products and quotients
    are rounded, so that a computed intercept of the edge test, or a
    computed haversine term, can differ in the last place from the
    exact value that is reasoned about here. *)
Definition number : Type := R.
Bind Scope R_scope with number.

(** [x > y], [x < y] and [x === y] on numbers, as booleans. *)
Definition gt (x y : number) : bool := if Rgt_dec x y then true else false.
Definition lt (x y : number) : bool := if Rlt_dec x y then true else false.
Definition strict_eq (x y : number) : bool :=
  if Req_dec_T x y then true else false.

(** [a !== b] on booleans. *)
Definition bool_neq (a b : bool) : bool := xorb a b.

(** [Math.ceil]: [up x] is the integer with [x < up x <= x + 1], so
    [up x - 1] is the floor of [x] and the ceiling of [x] is the
    opposite of the floor of [- x]. *)
Definition ceilZ (x : number) : Z := (- (up (- x) - 1))%Z.
Definition Math_ceil (x : number) : number := IZR (ceilZ x).

Definition Math_max (x y : number) : number := Rmax x y.
Definition Math_sin (x : number) : number := sin x.
Definition Math_cos (x : number) : number := cos x.
(** [Math.sqrt].  On a negative argument JavaScript answers NaN, a
    value that [number] does not have, and [sqrt] is 0; what is proved
    about [calculateDistance] (zero between a point and itself, the
    same in both directions) does not depend on the value there. *)
Definition Math_sqrt (x : number) : number := sqrt x.
Definition Math_PI : number := PI.

(** [Math.atan2 (y, x)], the angle of the point [(x, y)], by the
    quadrant of the point. *)
Definition Math_atan2 (y x : number) : number :=
  if gt x 0 then atan (y / x)
  else if lt x 0 then
    (if lt y 0 then atan (y / x) - PI else atan (y / x) + PI)
  else if gt y 0 then PI / 2
  else if lt y 0 then - (PI / 2)
  else 0.
End JsNumber.

(* ================================================================= *)
(** * src/lib/geolocation.ts *)

Module Geolocation.
Import JsNumber.
Local Open Scope R_scope.

(** [interface Coordinates { lat: number; lng: number }] *)
Record Coordinates : Type := mkCoordinates { lat : number; lng : number }.

(** [interface GeofencePolygon { lat: number; lng: number }]: one
    vertex; the two interfaces have the same shape, and TypeScript
    identifies them. *)
Definition GeofencePolygon : Type := Coordinates.

(** [polygon[i]].  The loop below only reads indices under the length
    (see [isPointInPolygon_guarded]); the default is never returned
    there. *)
Definition at_index (polygon : list GeofencePolygon) (i : nat)
  : GeofencePolygon :=
  nth i polygon (mkCoordinates 0 0).

(** The edge test of one iteration:
<<
  const xi = polygon[i].lat, yi = polygon[i].lng;
  const xj = polygon[j].lat, yj = polygon[j].lng;
  const intersect = ((yi > lng) !== (yj > lng)) &&
    (lat < (xj - xi) * (lng - yi) / (yj - yi) + xi);
>> *)
Definition intersect (point : Coordinates)
    (polygon : list GeofencePolygon) (i j : nat) : bool :=
  let xi := lat (at_index polygon i) in
  let yi := lng (at_index polygon i) in
  let xj := lat (at_index polygon j) in
  let yj := lng (at_index polygon j) in
  bool_neq (gt yi (lng point)) (gt yj (lng point))
  && lt (lat point) ((xj - xi) * (lng point - yi) / (yj - yi) + xi).

(** [for (let i = 0, j = polygon.length - 1; i < polygon.length; j = i++)]
    The recursion is on [todo], the number of iterations left, which
    is [polygon.length - i]; each iteration ends with [j = i; i = i + 1]. *)
Fixpoint ray_loop (point : Coordinates) (polygon : list GeofencePolygon)
    (todo i j : nat) (inside : bool) : bool :=
  match todo with
  | O => inside
  | S todo' =>
      let inside' :=
        if intersect point polygon i j then negb inside else inside in
      ray_loop point polygon todo' (S i) i inside'
  end.

Definition isPointInPolygon (point : Coordinates)
    (polygon : list GeofencePolygon) : bool :=
  if length polygon <? 3 then false
  else ray_loop point polygon (length polygon) 0 (length polygon - 1) false.

(** ** The same function with the partial operations guarded

    Division reports a zero divisor and an array read reports an index
    that is not under the length.  [&&] evaluates its right operand
    only when the left one is [true]. *)
Inductive Fault : Type := DivisionByZero | IndexOutOfRange.

Definition Guarded (A : Type) : Type := (Fault + A)%type.
Definition ret {A} (a : A) : Guarded A := inr a.
Definition raise {A} (f : Fault) : Guarded A := inl f.
Definition bind {A B} (m : Guarded A) (k : A -> Guarded B) : Guarded B :=
  match m with
  | inl f => inl f
  | inr a => k a
  end.

Declare Scope guarded_scope.
Delimit Scope guarded_scope with guarded.
Notation "x <- m ;; k" := (bind m (fun x => k))
  (at level 61, m at next level, right associativity) : guarded_scope.

Definition div_guarded (x y : number) : Guarded number :=
  if strict_eq y 0 then raise DivisionByZero else ret (x / y).

Definition read_guarded (polygon : list GeofencePolygon) (i : nat)
  : Guarded GeofencePolygon :=
  match nth_error polygon i with
  | Some v => ret v
  | None => raise IndexOutOfRange
  end.

Definition intersect_guarded (point : Coordinates)
    (polygon : list GeofencePolygon) (i j : nat) : Guarded bool :=
  (pi <- read_guarded polygon i ;;
   pj <- read_guarded polygon j ;;
   let xi := lat pi in
   let yi := lng pi in
   let xj := lat pj in
   let yj := lng pj in
   if bool_neq (gt yi (lng point)) (gt yj (lng point)) then
     q <- div_guarded ((xj - xi) * (lng point - yi)) (yj - yi) ;;
     ret (lt (lat point) (q + xi))
   else ret false)%guarded.

Fixpoint ray_loop_guarded (point : Coordinates)
    (polygon : list GeofencePolygon)
    (todo i j : nat) (inside : bool) : Guarded bool :=
  match todo with
  | O => ret inside
  | S todo' =>
      (hit <- intersect_guarded point polygon i j ;;
       ray_loop_guarded point polygon todo' (S i) i
         (if hit then negb inside else inside))%guarded
  end.

Definition isPointInPolygon_guarded (point : Coordinates)
    (polygon : list GeofencePolygon) : Guarded bool :=
  if length polygon <? 3 then ret false
  else ray_loop_guarded point polygon
         (length polygon) 0 (length polygon - 1) false.

(** ** Distance and fare *)

(** [function toRad(deg) { return deg * (Math.PI / 180); }] *)
Definition toRad (deg : number) : number := deg * (Math_PI / 180).

(** Haversine distance in kilometres. *)
Definition calculateDistance (point1 point2 : Coordinates) : number :=
  let R := 6371 in
  let dLat := toRad (lat point2 - lat point1) in
  let dLon := toRad (lng point2 - lng point1) in
  let lat1 := toRad (lat point1) in
  let lat2 := toRad (lat point2) in
  let a := Math_sin (dLat / 2) * Math_sin (dLat / 2) +
           Math_sin (dLon / 2) * Math_sin (dLon / 2)
           * Math_cos lat1 * Math_cos lat2 in
  let c := 2 * Math_atan2 (Math_sqrt a) (Math_sqrt (1 - a)) in
  R * c.

(** ['village' | 'outbound'] *)
Inductive TripType : Type := village | outbound.

Definition VILLAGE_BASE_FARE : number := 20.
Definition OUTBOUND_BASE_FARE : number := 40.
Definition RATE_PER_KM : number := 10.

Definition baseFare (tripType : TripType) : number :=
  match tripType with
  | village => VILLAGE_BASE_FARE
  | outbound => OUTBOUND_BASE_FARE
  end.

Definition calculateFare (tripType : TripType) (distanceKm : number)
  : number :=
  let distanceFare := Math_ceil distanceKm * RATE_PER_KM in
  Math_max (baseFare tripType) (baseFare tripType + distanceFare).
End Geolocation.

(* ================================================================= *)
(** * components/admin/GeofenceEditor.tsx *)

Module GeofenceEditor.
Import JsNumber.
Local Open Scope string_scope.
Local Open Scope nat_scope.
Local Open Scope list_scope.

(** [interface GeofencePoint { lat: number; lng: number }] *)
Record GeofencePoint : Type := mkPoint { lat : number; lng : number }.

(** [interface GeofenceData] *)
Record GeofenceData : Type := mkGeofenceData {
  id : string;
  name : string;
  polygon : list GeofencePoint;
  is_active : bool
}.

(** The state hooks of the [GeofenceEditor] component. *)
Record EditorState : Type := mkEditorState {
  geofence : option GeofenceData;
  vertices : list GeofencePoint;
  originalVertices : list GeofencePoint;
  isEditing : bool;
  isSaving : bool;
  hasChanges : bool
}.

(** The state before the first effect: the initial values of the hooks. *)
Definition initialState : EditorState :=
  mkEditorState None [] [] false false false.

(** Messages shown through [toast]. *)
Inductive Toast : Type :=
| ToastInfo (message : string)
| ToastError (message : string)
| ToastSuccess (message : string).

(** What one event handler has done when it returns: the next state,
    the toasts it showed (oldest first), and whether it set [vertices]
    or [originalVertices], the dependencies of the effect that
    recomputes [hasChanges].  Every setter call of the source passes a
    fresh array, so a call always changes the dependency. *)
Record Update : Type := mkUpdate {
  next : EditorState;
  shown : list Toast;
  deps_changed : bool
}.

Definition Action : Type := Update -> Update.

Definition skip : Action := fun u => u.
Definition seq (a b : Action) : Action := fun u => b (a u).

Declare Scope action_scope.
Delimit Scope action_scope with action.
Notation "a ;; b" := (seq a b)
  (at level 61, right associativity) : action_scope.

Definition toast (t : Toast) : Action := fun u =>
  mkUpdate (next u) (shown u ++ [t]) (deps_changed u).

Definition setGeofence (g : option GeofenceData) : Action := fun u =>
  let s := next u in
  mkUpdate
    (mkEditorState g (vertices s) (originalVertices s)
       (isEditing s) (isSaving s) (hasChanges s))
    (shown u) (deps_changed u).

(** [setVertices(prev => f(prev))] *)
Definition setVertices_with
    (f : list GeofencePoint -> list GeofencePoint) : Action := fun u =>
  let s := next u in
  mkUpdate
    (mkEditorState (geofence s) (f (vertices s)) (originalVertices s)
       (isEditing s) (isSaving s) (hasChanges s))
    (shown u) true.

(** [setVertices(v)] *)
Definition setVertices (v : list GeofencePoint) : Action :=
  setVertices_with (fun _ => v).

Definition setOriginalVertices (v : list GeofencePoint) : Action := fun u =>
  let s := next u in
  mkUpdate
    (mkEditorState (geofence s) (vertices s) v
       (isEditing s) (isSaving s) (hasChanges s))
    (shown u) true.

Definition setIsEditing (b : bool) : Action := fun u =>
  let s := next u in
  mkUpdate
    (mkEditorState (geofence s) (vertices s) (originalVertices s)
       b (isSaving s) (hasChanges s))
    (shown u) (deps_changed u).

Definition setIsSaving (b : bool) : Action := fun u =>
  let s := next u in
  mkUpdate
    (mkEditorState (geofence s) (vertices s) (originalVertices s)
       (isEditing s) b (hasChanges s))
    (shown u) (deps_changed u).

Definition setHasChanges (b : bool) (s : EditorState) : EditorState :=
  mkEditorState (geofence s) (vertices s) (originalVertices s)
    (isEditing s) (isSaving s) b.

(** ** Arrays *)

(** [updated[index] = newPos] on a copy of the array, for an index
    under the length.  The only caller passes the index of a rendered
    marker, which is under the length.  At or beyond the length
    JavaScript grows the array and leaves holes; a [list GeofencePoint]
    has no holes, and the list is returned as it is there. *)
Fixpoint array_set (l : list GeofencePoint) (index : nat)
    (newPos : GeofencePoint) : list GeofencePoint :=
  match l, index with
  | [], _ => []
  | _ :: rest, O => newPos :: rest
  | v :: rest, S index' => v :: array_set rest index' newPos
  end.

(** [Array.prototype.filter] with the two-argument callback
    [(element, i) => ...]; [i] is the index in the original array. *)
Fixpoint filter_from (keep : GeofencePoint -> nat -> bool) (i : nat)
    (l : list GeofencePoint) : list GeofencePoint :=
  match l with
  | [] => []
  | v :: rest =>
      if keep v i then v :: filter_from keep (S i) rest
      else filter_from keep (S i) rest
  end.

Definition Array_filter (keep : GeofencePoint -> nat -> bool)
    (l : list GeofencePoint) : list GeofencePoint :=
  filter_from keep 0 l.

Definition point_eqb (p q : GeofencePoint) : bool :=
  strict_eq (lat p) (lat q) && strict_eq (lng p) (lng q).

Fixpoint points_eqb (a b : list GeofencePoint) : bool :=
  match a, b with
  | [], [] => true
  | p :: a', q :: b' => point_eqb p q && points_eqb a' b'
  | _, _ => false
  end.

(** [JSON.stringify(a) !== JSON.stringify(b)] for two arrays of
    [{lat, lng}] objects.  The texts are the elements in order, each
    with its two numbers printed; with exact numbers two texts are
    equal exactly when the arrays have the same length and the same
    numbers at every position, and that test is what is modelled. *)
Definition JSON_stringify_differs (a b : list GeofencePoint) : bool :=
  negb (points_eqb a b).

(** ** The persistence collaborator (the [supabase] client) *)

Inductive PostgrestError : Type := mkPostgrestError (message : string).

Record Supabase : Type := mkSupabase {
  (** [from('geofences').select('*').eq('name', ...).maybeSingle()]:
      the [data] of the answer. *)
  select_geofence : string -> option GeofenceData;
  (** [from('geofences').update({ polygon }).eq('id', id)]: the
      [error] of the answer, [None] for [null]. *)
  update_polygon : string -> list GeofencePoint -> option PostgrestError
}.

(** ** The handlers of [GeofenceEditor] *)

Local Open Scope action_scope.

Definition fetchGeofence (db : Supabase) : Action :=
  match select_geofence db "Pilar Village" with
  | Some data =>
      setGeofence (Some data) ;;
      setVertices (polygon data) ;;
      setOriginalVertices (polygon data)
  | None => skip
  end.

Definition handleVertexMove (index : nat) (newPos : GeofencePoint)
  : Action :=
  setVertices_with (fun prev => array_set prev index newPos).

Definition handleVertexAdd (pos : GeofencePoint) : Action :=
  setVertices_with (fun prev => prev ++ [pos]).

Definition handleVertexRemove (index : nat) : Action :=
  setVertices_with
    (fun prev => Array_filter (fun _ i => negb (i =? index)) prev).

(** The handlers below are closures over the state [r] of the render
    in which they were created. *)
Definition handleReset (r : EditorState) : Action :=
  setVertices (originalVertices r) ;;
  toast (ToastInfo "Geofence reset to original").

Definition handleClear : Action :=
  setVertices [] ;;
  toast (ToastInfo "All vertices cleared - click on map to add new ones").

(** A call of the store:
    [from('geofences').update({ polygon }).eq('id', id)]. *)
Record StoreCall : Type := mkStoreCall {
  call_id : string;
  call_polygon : list GeofencePoint
}.

(** The [error] of the store's answer to a call. *)
Definition answer (db : Supabase) (call : StoreCall) : option PostgrestError :=
  update_polygon db (call_id call) (call_polygon call).

(** An [async] handler with at most one [await] on the store.  Either
    it runs to its end without a call, or it runs [before], sends
    [call], and is suspended; when the answer is there it goes on with
    [after], applied to the [error] of the answer, on the state of that
    moment.  The handler learns of the store through the answer only. *)
Inductive Handler : Type :=
| Done (a : Action)
| Await (before : Action) (call : StoreCall)
        (after : option PostgrestError -> Action).

(** [handleSave], created by the render of [r]: [geofence] and
    [vertices] are the values of that render, also after the [await]. *)
Definition handleSave_async (r : EditorState) : Handler :=
  match geofence r with
  | None => Done (toast (ToastError "Need at least 3 vertices to save"))
  | Some g =>
      if length (vertices r) <? 3 then
        Done (toast (ToastError "Need at least 3 vertices to save"))
      else
        Await (setIsSaving true) (mkStoreCall (id g) (vertices r))
          (fun error =>
             setIsSaving false ;;
             match error with
             | Some _ => toast (ToastError "Failed to save geofence")
             | None =>
                 setOriginalVertices (vertices r) ;;
                 setIsEditing false ;;
                 toast (ToastSuccess "Geofence saved successfully!")
             end)
  end.

(** A handler whose call, if it makes one, is answered before any other
    event. *)
Definition answered_at_once (db : Supabase) (h : Handler) : Action :=
  match h with
  | Done a => a
  | Await before call after => before ;; after (answer db call)
  end.

(** [handleSave] with its call answered before any other event; the
    runs in which operations take place while the call is pending are
    those of [GeofenceEditorSession.save_run]. *)
Definition handleSave (db : Supabase) (r : EditorState) : Action :=
  answered_at_once db (handleSave_async r).

(** The inline handlers of the Edit Boundary and Cancel buttons. *)
Definition handleEdit : Action := setIsEditing true.

Definition handleCancel (r : EditorState) : Action :=
  setVertices (originalVertices r) ;;
  setIsEditing false.

(** ** The [PolygonEditor] child component *)

Record PolygonEditorProps : Type := mkProps {
  props_vertices : list GeofencePoint;
  onVertexMove : nat -> GeofencePoint -> Action;
  onVertexAdd : GeofencePoint -> Action;
  onVertexRemove : nat -> Action;
  props_isEditing : bool
}.

(** [useMapEvents({ click(e) { ... } })] *)
Definition PolygonEditor_click (props : PolygonEditorProps)
    (pos : GeofencePoint) : Action :=
  if props_isEditing props then onVertexAdd props pos else skip.

(** A marker is rendered for each vertex, in editing mode only. *)
Definition marker_rendered (props : PolygonEditorProps) (index : nat)
  : bool :=
  props_isEditing props && (index <? length (props_vertices props)).

(** The [drag] handler of marker [index]. *)
Definition PolygonEditor_drag (props : PolygonEditorProps)
    (index : nat) (position : GeofencePoint) : Action :=
  onVertexMove props index position.

(** The [contextmenu] handler of marker [index]. *)
Definition PolygonEditor_contextmenu (props : PolygonEditorProps)
    (index : nat) : Action :=
  if 3 <? length (props_vertices props) then onVertexRemove props index
  else skip.

(** The props [GeofenceEditor] passes when it renders state [r]. *)
Definition polygonEditorProps (r : EditorState) : PolygonEditorProps :=
  mkProps (vertices r) handleVertexMove handleVertexAdd handleVertexRemove
    (isEditing r).

(** ** The effect and one render cycle *)

(** [useEffect(() => { if (originalVertices.length > 0) { ... } },
    [vertices, originalVertices])] *)
Definition hasChanges_effect (s : EditorState) : EditorState :=
  if 0 <? length (originalVertices s) then
    setHasChanges (JSON_stringify_differs (vertices s) (originalVertices s)) s
  else s.

(** An event: the handler created by the render of [s] runs, then the
    component renders again and the effect runs when one of its
    dependencies was set. *)
Definition render_cycle (handler : Action) (s : EditorState) : Update :=
  let u := handler (mkUpdate s [] false) in
  if deps_changed u then
    mkUpdate (hasChanges_effect (next u)) (shown u) true
  else u.

(** ** The operations of the editor *)

(** The four editing operations, as the user triggers them: a click
    on the map, the drag of a marker, the context menu of a marker,
    the clear button. *)
Inductive EditOp : Type :=
| addVertex (pos : GeofencePoint)
| moveVertex (index : nat) (pos : GeofencePoint)
| removeVertex (index : nat)
| clearAll.

Inductive Op : Type :=
| edit (e : EditOp)
| reset
| cancel
| save
| enterEdit
| load.

Definition perform_edit (e : EditOp) (r : EditorState) : Action :=
  let props := polygonEditorProps r in
  match e with
  | addVertex pos => PolygonEditor_click props pos
  | moveVertex index pos =>
      if marker_rendered props index then PolygonEditor_drag props index pos
      else skip
  | removeVertex index =>
      if marker_rendered props index then PolygonEditor_contextmenu props index
      else skip
  | clearAll => handleClear
  end.

Definition perform (db : Supabase) (o : Op) (r : EditorState) : Action :=
  match o with
  | edit e => perform_edit e r
  | reset => handleReset r
  | cancel => handleCancel r
  | save => handleSave db r
  | enterEdit => handleEdit
  | load => fetchGeofence db
  end.

Definition apply_edit (s : EditorState) (e : EditOp) : EditorState :=
  next (render_cycle (perform_edit e s) s).

Definition apply_edits (es : list EditOp) (s : EditorState) : EditorState :=
  fold_left apply_edit es s.
End GeofenceEditor.

(* ================================================================= *)
(** * components/booking/BookingFlow.tsx *)

Module BookingFlow.
Import JsNumber Geolocation.
Local Open Scope string_scope.
Local Open Scope nat_scope.

(** [interface Station] *)
Record Station : Type := mkStation {
  id : string;
  name : string;
  latitude : number;
  longitude : number
}.

Inductive BookingStep : Type :=
| pickup | dropoff | confirm | searching | matched | complete.

(** The state hooks of [BookingFlow] that the selection handlers read
    or write ([customerPhone], [bookingId] and [assignedDriver] play no
    part in them). *)
Record State : Type := mkState {
  step : BookingStep;
  pickupLocation : option Coordinates;
  dropoffLocation : option Coordinates;
  selectedStation : option Station;
  tripType : TripType;
  fare : number;
  geofence : list GeofencePolygon;
  stations : list Station
}.

Definition setStep (v : BookingStep) (s : State) : State :=
  mkState v (pickupLocation s) (dropoffLocation s) (selectedStation s)
    (tripType s) (fare s) (geofence s) (stations s).
Definition setPickupLocation (v : option Coordinates) (s : State) : State :=
  mkState (step s) v (dropoffLocation s) (selectedStation s)
    (tripType s) (fare s) (geofence s) (stations s).
Definition setDropoffLocation (v : option Coordinates) (s : State) : State :=
  mkState (step s) (pickupLocation s) v (selectedStation s)
    (tripType s) (fare s) (geofence s) (stations s).
Definition setSelectedStation (v : option Station) (s : State) : State :=
  mkState (step s) (pickupLocation s) (dropoffLocation s) v
    (tripType s) (fare s) (geofence s) (stations s).
Definition setTripType (v : TripType) (s : State) : State :=
  mkState (step s) (pickupLocation s) (dropoffLocation s) (selectedStation s)
    v (fare s) (geofence s) (stations s).

(** [if (stationId)] on an optional string: absent ([undefined]) and
    the empty string are falsy. *)
Definition truthy (stationId : option string) : bool :=
  match stationId with
  | Some sid => negb (sid =? "")%string
  | None => false
  end.

(** [s.id === stationId], where [stationId] may be [undefined]. *)
Definition id_strict_eq (sid : string) (stationId : option string) : bool :=
  match stationId with
  | Some wanted => (sid =? wanted)%string
  | None => false
  end.

Definition handleDropoffSelect (coords : Coordinates)
    (stationId : option string) (s0 : State) : State :=
  let s1 := setDropoffLocation (Some coords) s0 in
  let s2 :=
    (* Check if dropoff is a station *)
    if truthy stationId then
      match find (fun s => id_strict_eq (id s) stationId) (stations s0) with
      | Some station =>
          setTripType outbound (setSelectedStation (Some station) s1)
      | None => s1
      end
    else
      (* Check if dropoff is inside geofence (village trip) *)
      if isPointInPolygon coords (geofence s0) then
        setSelectedStation None (setTripType village s1)
      else
        (* Outside but not a station - still outbound *)
        setSelectedStation None (setTripType outbound s1) in
  setStep confirm s2.
End BookingFlow.

(* ================================================================= *)
(** * Sample data *)

Module Samples.
Import JsNumber.
Local Open Scope string_scope.
Local Open Scope R_scope.

(** The square of the geofence test: (0,0), (0,10), (10,10), (10,0). *)
Definition square : list Geolocation.GeofencePolygon :=
  [Geolocation.mkCoordinates 0 0; Geolocation.mkCoordinates 0 10;
   Geolocation.mkCoordinates 10 10; Geolocation.mkCoordinates 10 0].

Definition v1 : GeofenceEditor.GeofencePoint := GeofenceEditor.mkPoint 0 0.
Definition v2 : GeofenceEditor.GeofencePoint := GeofenceEditor.mkPoint 0 10.
Definition v3 : GeofenceEditor.GeofencePoint := GeofenceEditor.mkPoint 10 10.
Definition v4 : GeofenceEditor.GeofencePoint := GeofenceEditor.mkPoint 10 0.

Definition pilar : GeofenceEditor.GeofenceData :=
  GeofenceEditor.mkGeofenceData "g-1" "Pilar Village" [v1; v2; v3] true.

(** A collaborator whose update always succeeds, and one whose update
    always fails. *)
Definition db_ok : GeofenceEditor.Supabase :=
  GeofenceEditor.mkSupabase (fun _ => Some pilar) (fun _ _ => None).
Definition db_down : GeofenceEditor.Supabase :=
  GeofenceEditor.mkSupabase (fun _ => None)
    (fun _ _ => Some (GeofenceEditor.mkPostgrestError "unavailable")).

(** Editing the loaded triangle, with a fourth vertex added. *)
Definition editing_triangle : GeofenceEditor.EditorState :=
  GeofenceEditor.mkEditorState (Some pilar) [v1; v2; v3] [v1; v2; v3]
    true false false.
Definition editing_quad : GeofenceEditor.EditorState :=
  GeofenceEditor.mkEditorState (Some pilar) [v1; v2; v3; v4] [v1; v2; v3]
    true false true.
Definition editing_pair : GeofenceEditor.EditorState :=
  GeofenceEditor.mkEditorState (Some pilar) [v1; v2] [v1; v2; v3]
    true false true.

(** Editing before any geofence record was loaded: no record, an
    empty baseline. *)
Definition editing_unloaded : GeofenceEditor.EditorState :=
  GeofenceEditor.mkEditorState None [] [] true false false.
Definition editing_unloaded_triangle : GeofenceEditor.EditorState :=
  GeofenceEditor.mkEditorState None [v1; v2; v3] [] true false false.

(** A booking at drop-off selection: the geofence is the square, the
    pickup (5,5) was accepted, and the station list of the flow is
    empty (its query gave no rows, or has not been answered), while the
    map, which has a station list of its own, shows the station below. *)
Definition selecting_dropoff : BookingFlow.State :=
  BookingFlow.mkState BookingFlow.dropoff
    (Some (Geolocation.mkCoordinates 5 5)) None None
    Geolocation.village 0 square [].

Definition terminal : BookingFlow.Station :=
  BookingFlow.mkStation "S9" "Terminal" 20 20.
End Samples.

(* ================================================================= *)
(** * The edges of a polygon *)

Module Edges.
Import JsNumber Geolocation.
Local Open Scope R_scope.

(** The edge test of [isPointInPolygon] on two vertices: [vi] is
    [polygon[i]] and [vj] is [polygon[j]]. *)
Definition crosses (point : Coordinates) (vi vj : GeofencePolygon) : bool :=
  bool_neq (gt (lng vi) (lng point)) (gt (lng vj) (lng point))
  && lt (lat point)
        ((lat vj - lat vi) * (lng point - lng vi) / (lng vj - lng vi)
         + lat vi).

(** The pairs [(polygon[i], polygon[j])] of a walk that enters [l]
    from the vertex [prev]. *)
Fixpoint edges_from (prev : GeofencePolygon) (l : list GeofencePolygon)
  : list (GeofencePolygon * GeofencePolygon) :=
  match l with
  | [] => []
  | v :: rest => (v, prev) :: edges_from v rest
  end.

(** The edges of the closed polygon: the first one joins the first
    vertex to the last. *)
Definition edges (polygon : list GeofencePolygon)
  : list (GeofencePolygon * GeofencePolygon) :=
  edges_from (last polygon (mkCoordinates 0 0)) polygon.

(** The number of edges the ray from [point] crosses. *)
Definition crossing_count (point : Coordinates)
    (polygon : list GeofencePolygon) : nat :=
  length (filter (fun e => crosses point (fst e) (snd e)) (edges polygon)).

(** Whether the ray from [point] crosses an odd number of the edges of
    a walk. *)
Definition walk (point : Coordinates) (prev : GeofencePolygon)
    (l : list GeofencePolygon) : bool :=
  Nat.odd (length (filter (fun e => crosses point (fst e) (snd e))
                     (edges_from prev l))).

(** The same polygon, starting one vertex later. *)
Definition rotate (polygon : list GeofencePolygon) : list GeofencePolygon :=
  match polygon with
  | [] => []
  | v :: rest => rest ++ [v]
  end.

(** The rectangle with latitudes [a], [b] and longitudes [c], [d], in
    the vertex order of the square (0,0), (0,10), (10,10), (10,0). *)
Definition rectangle (a b c d : number) : list GeofencePolygon :=
  [mkCoordinates a c; mkCoordinates a d; mkCoordinates b d; mkCoordinates b c].
End Edges.

(* ================================================================= *)
(** * Acquiring the position: getCurrentPosition, hooks/useGeolocation.ts
      and the LocationGate component *)

Module UseGeolocation.
Import JsNumber Geolocation.
Local Open Scope string_scope.
Local Open Scope nat_scope.

(** The browser's [GeolocationPositionError]: its [code], and the
    constants [PERMISSION_DENIED], [POSITION_UNAVAILABLE] and [TIMEOUT]
    that the Geolocation API fixes to 1, 2 and 3. *)
Record GeolocationPositionError : Type := mkPositionError { code : nat }.

Definition PERMISSION_DENIED : nat := 1.
Definition POSITION_UNAVAILABLE : nat := 2.
Definition TIMEOUT : nat := 3.

(** The options [getCurrentPosition] passes to the device. *)
Record PositionOptions : Type := mkPositionOptions {
  enableHighAccuracy : bool;
  timeout : Z;
  maximumAge : Z
}.

(** [navigator.geolocation], when the browser has it: a request answers
    with the [coords] of a position or with a position error. *)
Definition Device : Type :=
  PositionOptions -> GeolocationPositionError + Coordinates.

Record Navigator : Type := mkNavigator { geolocation : option Device }.

(** What a rejected promise carries. *)
Inductive Rejection : Type :=
| RejectedPositionError (e : GeolocationPositionError)
| RejectedError (message : string).

(** [getCurrentPosition()] of lib/geolocation.ts, with the promise run
    to its settlement: [inr] for resolved, [inl] for rejected. *)
Definition getCurrentPosition (navigator : Navigator)
  : Rejection + Coordinates :=
  match geolocation navigator with
  | None =>
      inl (RejectedError "Geolocation is not supported by your browser")
  | Some device =>
      match device (mkPositionOptions true 10000%Z 0%Z) with
      | inr coords => inr coords
      | inl e => inl (RejectedPositionError e)
      end
  end.

Definition getGeolocationErrorMessage (error : GeolocationPositionError)
  : string :=
  if code error =? PERMISSION_DENIED then
    "Location permission denied. Please enable location access in your browser settings."
  else if code error =? POSITION_UNAVAILABLE then
    "Location information is unavailable. Please try again."
  else if code error =? TIMEOUT then
    "Location request timed out. Please try again."
  else
    "An unknown error occurred while getting your location.".

(** The state hooks of [useGeolocation]. *)
Record HookState : Type := mkHookState {
  coordinates : option Coordinates;
  isLoading : bool;
  error : option string;
  isInsideGeofence : option bool
}.

Definition initialHookState : HookState := mkHookState None false None None.

Definition setCoordinates (v : option Coordinates) (s : HookState) :=
  mkHookState v (isLoading s) (error s) (isInsideGeofence s).
Definition setIsLoading (v : bool) (s : HookState) :=
  mkHookState (coordinates s) v (error s) (isInsideGeofence s).
Definition setError (v : option string) (s : HookState) :=
  mkHookState (coordinates s) (isLoading s) v (isInsideGeofence s).
Definition setIsInsideGeofence (v : option bool) (s : HookState) :=
  mkHookState (coordinates s) (isLoading s) (error s) v.

(** [checkLocation(geofence)]: the state after the promise settles and
    the boolean it resolves to. *)
Definition checkLocation (navigator : Navigator)
    (geofence : list GeofencePolygon) (s0 : HookState) : HookState * bool :=
  let s1 := setError None (setIsLoading true s0) in
  match getCurrentPosition navigator with
  | inr coords =>
      let s2 := setCoordinates (Some coords) s1 in
      let inside := isPointInPolygon coords geofence in
      let s3 := setIsInsideGeofence (Some inside) s2 in
      (setIsLoading false s3, inside)
  | inl err =>
      let errorMessage :=
        match err with
        | RejectedPositionError e => getGeolocationErrorMessage e
        | RejectedError _ => "Failed to get your location"
        end in
      (setIsLoading false (setError (Some errorMessage) s1), false)
  end.

Definition resetLocation (s : HookState) : HookState :=
  setError None (setIsInsideGeofence None (setCoordinates None s)).
End UseGeolocation.

Module LocationGate.
Import JsNumber Geolocation UseGeolocation.
Local Open Scope nat_scope.

(** The state of the component: its own [geofence] hook and the hooks
    of [useGeolocation]. *)
Record State : Type := mkState {
  geofence : list GeofencePolygon;
  location : HookState
}.

Definition initialState (geofence : list GeofencePolygon) : State :=
  mkState geofence initialHookState.

(** [handleCheckLocation], created by the render of [r]: [geofence] and
    [coordinates] are the values of that render.  The result is the
    next state and the calls of [onLocationVerified], in order. *)
Definition handleCheckLocation (navigator : Navigator) (r : State)
  : State * list Coordinates :=
  let '(location', inside) :=
    checkLocation navigator (geofence r) (location r) in
  let calls :=
    match coordinates (location r) with
    | Some coords => if inside then [coords] else []
    | None => []
    end in
  (mkState (geofence r) location', calls).

(** Whether the render of [r] shows an enabled button bound to
    [handleCheckLocation]: "Get My Location" (before any position, not
    loading, disabled while the geofence is empty), "Try Again" (an
    error is shown), "Check Again" (a position outside the geofence). *)
Definition check_button (r : State) : bool :=
  let s := location r in
  (match coordinates s with None => true | Some _ => false end
   && negb (isLoading s)
   && negb (length (geofence r) =? 0))
  || (match error s with
      | Some message => negb (message =? "")%string
      | None => false
      end)
  || (match coordinates s, isInsideGeofence s with
      | Some _, Some false => true
      | _, _ => false
      end).

(** What holds of the states the component goes through: a verdict is
    stored only with a position and is the answer of the geofence test
    on it, and no error is shown beside the verdict "inside". *)
Definition consistent (r : State) : Prop :=
  (forall c, coordinates (location r) = Some c ->
             isInsideGeofence (location r)
             = Some (isPointInPolygon c (geofence r))) /\
  (coordinates (location r) = None ->
   isInsideGeofence (location r) = None) /\
  (isInsideGeofence (location r) = Some true -> error (location r) = None).

End LocationGate.

(* ================================================================= *)
(** * Sessions of the LocationGate: presses and answers in any order *)

Module GateSession.
Import JsNumber Geolocation UseGeolocation LocationGate.
Local Open Scope nat_scope.
Local Open Scope list_scope.

(** [checkLocation] up to its [await]. *)
Definition checkLocation_start (s : HookState) : HookState :=
  setError None (setIsLoading true s).

(** [checkLocation] from the settlement of [getCurrentPosition()] on,
    acting on the hooks of that moment; [geofence] is the argument the
    call was made with. *)
Definition checkLocation_finish (outcome : Rejection + Coordinates)
    (geofence : list GeofencePolygon) (s : HookState) : HookState * bool :=
  match outcome with
  | inr coords =>
      let s2 := setCoordinates (Some coords) s in
      let inside := isPointInPolygon coords geofence in
      let s3 := setIsInsideGeofence (Some inside) s2 in
      (setIsLoading false s3, inside)
  | inl err =>
      let errorMessage :=
        match err with
        | RejectedPositionError e => getGeolocationErrorMessage e
        | RejectedError _ => "Failed to get your location"%string
        end in
      (setIsLoading false (setError (Some errorMessage) s), false)
  end.

(** A check in flight: the [geofence] and the [coordinates] that the
    [handleCheckLocation] which started it closed over. *)
Record Check : Type := mkCheck {
  check_geofence : list GeofencePolygon;
  check_coordinates : option Coordinates
}.

(** One call of [onLocationVerified]: the position passed, the answer
    of the device that led to the call, and the positions the device
    had delivered in the session before that answer. *)
Record Report : Type := mkReport {
  passed : Coordinates;
  led_by : Rejection + Coordinates;
  delivered_before : list Coordinates
}.

(** A session: the component, the checks in flight (oldest first), and
    for the record the positions delivered so far and the calls of
    [onLocationVerified] made so far (both oldest first). *)
Record Session : Type := mkSession {
  gate : State;
  in_flight : list Check;
  delivered : list Coordinates;
  reports : list Report
}.

(** A press on whichever check button is shown, and the answer of the
    device to the [k]-th check in flight. *)
Inductive Event : Type :=
| Press
| Answer (k : nat) (outcome : Rejection + Coordinates).

Definition step (w : Session) (e : Event) : Session :=
  match e with
  | Press =>
      if check_button (gate w) then
        mkSession
          (mkState (geofence (gate w))
             (checkLocation_start (location (gate w))))
          (in_flight w
           ++ [mkCheck (geofence (gate w)) (coordinates (location (gate w)))])
          (delivered w) (reports w)
      else w
  | Answer k outcome =>
      match nth_error (in_flight w) k with
      | None => w
      | Some check =>
          let '(location', inside) :=
            checkLocation_finish outcome (check_geofence check)
              (location (gate w)) in
          (* if (inside && coordinates) onLocationVerified(coordinates) *)
          let calls :=
            match check_coordinates check with
            | Some coords => if inside then [coords] else []
            | None => []
            end in
          mkSession
            (mkState (geofence (gate w)) location')
            (firstn k (in_flight w) ++ skipn (S k) (in_flight w))
            (match outcome with
             | inr position => delivered w ++ [position]
             | inl _ => delivered w
             end)
            (reports w
             ++ map (fun c => mkReport c outcome (delivered w)) calls)
      end
  end.

Definition run (events : list Event) (w : Session) : Session :=
  fold_left step events w.

Definition first_render (geofence : list GeofencePolygon) : Session :=
  mkSession (initialState geofence) [] [] [].

(** The sessions in which every check is answered before the next
    press: one press and its answer for each outcome. *)
Definition one_at_a_time (outcomes : list (Rejection + Coordinates))
  : list Event :=
  flat_map (fun outcome => [Press; Answer 0 outcome]) outcomes.

(** What holds along every session with geofence [g]: stored and
    captured positions have been delivered, and so has every position
    passed to [onLocationVerified], before the answer that led to the
    call, which is a position inside the geofence. *)
Definition sound_report (g : list GeofencePolygon) (rep : Report) : Prop :=
  In (passed rep) (delivered_before rep) /\
  exists position,
    led_by rep = inr position /\ isPointInPolygon position g = true.

Definition traced (g : list GeofencePolygon) (w : Session) : Prop :=
  geofence (gate w) = g /\
  (forall c, coordinates (location (gate w)) = Some c ->
             In c (delivered w)) /\
  Forall (fun check =>
            check_geofence check = g /\
            forall c, check_coordinates check = Some c -> In c (delivered w))
    (in_flight w) /\
  Forall (sound_report g) (reports w).

(** What holds between the checks of a session that runs them one at a
    time. *)
Definition settled (g : list GeofencePolygon) (w : Session) : Prop :=
  in_flight w = [] /\
  geofence (gate w) = g /\
  consistent (gate w) /\
  Forall (fun rep => isPointInPolygon (passed rep) g = false) (reports w).
End GateSession.

(* ================================================================= *)
(** * components/booking/BookingFlow.tsx: the rest of the flow, with the
      events of BookingMap.tsx and the update of DriverDashboard.tsx *)

Module BookingSession.
Import JsNumber Geolocation BookingFlow.
Local Open Scope string_scope.
Local Open Scope nat_scope.
Local Open Scope list_scope.

Definition setFare (v : number) (s : State) : State :=
  mkState (step s) (pickupLocation s) (dropoffLocation s) (selectedStation s)
    (tripType s) v (geofence s) (stations s).

(** [booking_status] of the schema. *)
Inductive BookingStatus : Type :=
| pending | accepted | in_progress | completed | cancelled.

(** A row of [drivers], as far as the flow shows it. *)
Record Driver : Type := mkDriver {
  driver_key : string;
  full_name : string;
  mobile_number : string
}.

(** The object passed to [from('bookings').insert(...)]. *)
Record BookingInsert : Type := mkBookingInsert {
  customer_phone : option string;
  pickup_latitude : number;
  pickup_longitude : number;
  dropoff_latitude : number;
  dropoff_longitude : number;
  station_id : option string;
  trip_type : TripType;
  booking_fare : number;
  status : BookingStatus
}.

(** A row of [bookings], as far as the code reads or writes it. *)
Record BookingRow : Type := mkBookingRow {
  row_id : string;
  row_request : BookingInsert;
  row_status : BookingStatus;
  row_driver_id : option string;
  row_accepted_at : option string
}.

(** The store: the answer to an insert ([inl] an error, [inr] the id of
    the new row) and the lookup of a driver by id. *)
Record Supabase : Type := mkSupabase {
  insert_booking : BookingInsert -> GeofenceEditor.PostgrestError + string;
  select_driver : string -> option Driver
}.

(** The remaining state hooks of [BookingFlow], the alerts shown, the
    inserts sent to the store (oldest first), and whether a handler set
    one of [pickupLocation], [dropoffLocation], [tripType], the
    dependencies of the fare effect. *)
Record World : Type := mkWorld {
  flow : State;
  customerPhone : string;
  bookingId : option string;
  assignedDriver : option Driver;
  alerts : list string;
  inserts : list BookingInsert;
  deps_changed : bool
}.

Definition with_flow (f : State -> State) (touches : bool) (w : World)
  : World :=
  mkWorld (f (flow w)) (customerPhone w) (bookingId w) (assignedDriver w)
    (alerts w) (inserts w) (deps_changed w || touches).
Definition alert (message : string) (w : World) : World :=
  mkWorld (flow w) (customerPhone w) (bookingId w) (assignedDriver w)
    (alerts w ++ [message]) (inserts w) (deps_changed w).
Definition setBookingId (v : option string) (w : World) : World :=
  mkWorld (flow w) (customerPhone w) v (assignedDriver w)
    (alerts w) (inserts w) (deps_changed w).
Definition setAssignedDriver (v : option Driver) (w : World) : World :=
  mkWorld (flow w) (customerPhone w) (bookingId w) v
    (alerts w) (inserts w) (deps_changed w).
Definition send_insert (request : BookingInsert) (w : World) : World :=
  mkWorld (flow w) (customerPhone w) (bookingId w) (assignedDriver w)
    (alerts w) (inserts w ++ [request]) (deps_changed w).

(** [x || null] on a string: the empty string gives [null]. *)
Definition or_null (x : string) : option string :=
  if (x =? "")%string then None else Some x.

(** [selectedStation?.id || null] *)
Definition station_id_or_null (selected : option Station) : option string :=
  match selected with
  | Some station => or_null (id station)
  | None => None
  end.

Definition handlePickupSelect (coords : Coordinates) (w : World) : World :=
  if negb (isPointInPolygon coords (geofence (flow w))) then
    alert "Pickup must be inside Pilar Village" w
  else
    with_flow (setStep dropoff) false
      (with_flow (setPickupLocation (Some coords)) true w).

(** [handleDropoffSelect] always passes a fresh object to
    [setDropoffLocation]. *)
Definition selectDropoff (coords : Coordinates) (stationId : option string)
    (w : World) : World :=
  with_flow (handleDropoffSelect coords stationId) true w.

(** The fare effect, with dependencies [pickupLocation],
    [dropoffLocation] and [tripType]. *)
Definition fare_effect (s : State) : State :=
  match pickupLocation s, dropoffLocation s with
  | Some p, Some d =>
      let distance := calculateDistance p d in
      setFare (calculateFare (tripType s) distance) s
  | _, _ => s
  end.

(** [handleConfirmBooking], with the insert run to its answer. *)
Definition handleConfirmBooking (db : Supabase) (w : World) : World :=
  match pickupLocation (flow w), dropoffLocation (flow w) with
  | Some p, Some d =>
      let request :=
        mkBookingInsert
          (or_null (customerPhone w))
          (lat p) (lng p) (lat d) (lng d)
          (station_id_or_null (selectedStation (flow w)))
          (tripType (flow w)) (fare (flow w)) pending in
      let w1 := send_insert request (with_flow (setStep searching) false w) in
      match insert_booking db request with
      | inl error =>
          with_flow (setStep confirm) false
            (alert "Failed to create booking. Please try again." w1)
      | inr new_id => setBookingId (Some new_id) w1
      end
  | _, _ => w
  end.

(** The callback of the subscription to updates of the booking row;
    [booking] is [payload.new]. *)
Definition status_eqb (a b : BookingStatus) : bool :=
  match a, b with
  | pending, pending | accepted, accepted | in_progress, in_progress
  | completed, completed | cancelled, cancelled => true
  | _, _ => false
  end.

(** [from('drivers').select('*').eq('id', booking.driver_id).single()] *)
Definition fetch_driver (db : Supabase) (driver_id : option string)
  : option Driver :=
  match driver_id with
  | Some key => select_driver db key
  | None => None
  end.

Definition on_update (db : Supabase) (booking : BookingRow) (w : World)
  : World :=
  if status_eqb (row_status booking) accepted
     && truthy (row_driver_id booking) then
    match fetch_driver db (row_driver_id booking) with
    | Some driver =>
        with_flow (setStep matched) false (setAssignedDriver (Some driver) w)
    | None => w
    end
  else if status_eqb (row_status booking) completed then
    with_flow (setStep complete) false w
  else w.

Definition handleNewBooking (w : World) : World :=
  setAssignedDriver None
    (setBookingId None
       (with_flow (setSelectedStation None) false
          (with_flow (setDropoffLocation None) true
             (with_flow (setPickupLocation None) true
                (with_flow (setStep pickup) false w))))).

(** The inline handler of the back arrow. *)
Definition handleBack (w : World) : World :=
  match step (flow w) with
  | dropoff => with_flow (setStep pickup) false w
  | confirm => with_flow (setStep dropoff) false w
  | _ => w
  end.

(** ** What the user and the store can do *)

Inductive Event : Type :=
| MapClick (coords : Coordinates)
| StationClick (station : Station)
| BackButton
| ConfirmButton
| NewBookingButton
| BookingUpdate (booking : BookingRow).

(** The handler an event reaches in the render of [w].  The map is
    rendered in the steps [pickup] and [dropoff] and routes a click by
    its [mode], which is the step; station markers (of the station list
    of BookingMap) are rendered in mode [dropoff]; the back arrow in
    the steps [dropoff] and [confirm]; the confirm button in the step
    [confirm]; the new-booking button in the step [complete]; updates
    arrive while a booking id is set. *)
Definition handler (db : Supabase) (e : Event) (w : World) : World :=
  match e, step (flow w) with
  | MapClick coords, pickup => handlePickupSelect coords w
  | MapClick coords, dropoff => selectDropoff coords None w
  | StationClick station, dropoff =>
      selectDropoff (mkCoordinates (latitude station) (longitude station))
        (Some (id station)) w
  | BackButton, (dropoff | confirm) => handleBack w
  | ConfirmButton, confirm => handleConfirmBooking db w
  | NewBookingButton, complete => handleNewBooking w
  | BookingUpdate booking, _ =>
      match bookingId w with
      | Some _ => on_update db booking w
      | None => w
      end
  | _, _ => w
  end.

(** One event: the handler, then the render that follows, in which the
    fare effect runs if one of its dependencies was set. *)
Definition dispatch (db : Supabase) (w : World) (e : Event) : World :=
  let w1 :=
    handler db e
      (mkWorld (flow w) (customerPhone w) (bookingId w) (assignedDriver w)
         (alerts w) (inserts w) false) in
  if deps_changed w1 then with_flow fare_effect false w1 else w1.

Definition run (db : Supabase) (events : list Event) (w : World) : World :=
  fold_left (dispatch db) events w.

(** The first render, once geofence and stations are loaded. *)
Definition initialWorld (geofence : list GeofencePolygon)
    (stations : list Station) : World :=
  mkWorld (mkState pickup None None None village 0 geofence stations)
    "" None None [] [] false.

(** The part of [well_formed] below that does not speak of the fare,
    and the part that does. *)
Definition base (g : list GeofencePolygon) (s : State) : Prop :=
  geofence s = g /\
  (forall p, pickupLocation s = Some p -> isPointInPolygon p g = true) /\
  (step s = dropoff \/ step s = confirm -> pickupLocation s <> None) /\
  (step s = confirm -> dropoffLocation s <> None).

Definition fare_ok (s : State) : Prop :=
  forall p d,
    pickupLocation s = Some p -> dropoffLocation s = Some d ->
    fare s = calculateFare (tripType s) (calculateDistance p d).

(** What holds of the worlds the flow goes through. *)
Definition well_formed (g : list GeofencePolygon) (w : World) : Prop :=
  geofence (flow w) = g /\
  (forall p, pickupLocation (flow w) = Some p -> isPointInPolygon p g = true) /\
  (forall p d,
     pickupLocation (flow w) = Some p -> dropoffLocation (flow w) = Some d ->
     fare (flow w) = calculateFare (tripType (flow w)) (calculateDistance p d)) /\
  (step (flow w) = dropoff \/ step (flow w) = confirm ->
   pickupLocation (flow w) <> None) /\
  (step (flow w) = confirm -> dropoffLocation (flow w) <> None).

(** A request that [handleConfirmBooking] may send, for geofence [g]. *)
Definition sound_request (g : list GeofencePolygon) (r : BookingInsert)
  : Prop :=
  status r = pending /\
  isPointInPolygon (mkCoordinates (pickup_latitude r) (pickup_longitude r)) g
  = true /\
  booking_fare r
  = calculateFare (trip_type r)
      (calculateDistance
         (mkCoordinates (pickup_latitude r) (pickup_longitude r))
         (mkCoordinates (dropoff_latitude r) (dropoff_longitude r))).

(** ** The store's side of an accepted booking *)

(** The row an insert creates: the columns the insert does not give
    take their defaults; [driver_id] and [accepted_at] have none and
    are [NULL]. *)
Definition inserted_row (new_id : string) (request : BookingInsert)
  : BookingRow :=
  mkBookingRow new_id request (status request) None None.

(** [acceptBooking] of DriverDashboard.tsx on the row with the given
    id: [update({ status: 'accepted', accepted_at: now })]. *)
Definition acceptBooking (now : string) (row : BookingRow) : BookingRow :=
  mkBookingRow (row_id row) (row_request row) accepted (row_driver_id row)
    (Some now).
End BookingSession.

(* ================================================================= *)
(** * components/admin/GeofenceEditor.tsx: sequences of operations and
      saves with their await *)

Module GeofenceEditorSession.
Import JsNumber GeofenceEditor.
Local Open Scope nat_scope.
Local Open Scope list_scope.

(** One operation and the render that follows it. *)
Definition apply_op (db : Supabase) (s : EditorState) (o : Op)
  : EditorState :=
  next (render_cycle (perform db o s) s).

Definition apply_ops (db : Supabase) (os : list Op) (s : EditorState)
  : EditorState :=
  fold_left (apply_op db) os s.

(** The Save button is rendered in editing mode and is
    [disabled={isSaving || vertices.length < 3}]. *)
Definition save_button_enabled (r : EditorState) : bool :=
  isEditing r && negb (isSaving r || (length (vertices r) <? 3)).

(** An operation of the user while a save is pending.  Map, markers
    and the other buttons work as ever; a press on Save does something
    only if the button is enabled. *)
Definition during_op (db : Supabase) (s : EditorState) (o : Op)
  : EditorState :=
  match o with
  | save => if save_button_enabled s then apply_op db s save else s
  | _ => apply_op db s o
  end.

(** What a press on Save has done when its handler has ended: the calls
    sent to the store, the toasts of the handler, the state. *)
Record SaveRun : Type := mkSaveRun {
  store_calls : list StoreCall;
  save_toasts : list Toast;
  final : EditorState
}.

(** The state in which the answer to the call of a save arrives, when
    the operations [during] took place while the call was pending. *)
Definition state_at_answer (db : Supabase) (during : list Op)
    (before : Action) (s : EditorState) : EditorState :=
  fold_left (during_op db) during (next (render_cycle before s)).

(** A press on Save in the render of [s], with the operations [during]
    taking place between the call and its answer. *)
Definition save_run (db : Supabase) (during : list Op) (s : EditorState)
  : SaveRun :=
  match handleSave_async s with
  | Done a =>
      let u := render_cycle a s in
      mkSaveRun [] (shown u) (next u)
  | Await before call after =>
      let u1 := render_cycle before s in
      let s2 := state_at_answer db during before s in
      let u3 := render_cycle (after (answer db call)) s2 in
      mkSaveRun [call] (shown u1 ++ shown u3) (next u3)
  end.

Definition is_save_or_load (o : Op) : bool :=
  match o with
  | save | load => true
  | _ => false
  end.

Definition is_clearAll (e : EditOp) : bool :=
  match e with
  | clearAll => true
  | _ => false
  end.

End GeofenceEditorSession.

(* ================================================================= *)
(** * Properties of numbers *)

Section NumberFacts.
Import JsNumber.
Local Open Scope R_scope.

Lemma gt_true_iff (x y : number) : gt x y = true <-> x > y.
Proof. unfold gt; destruct (Rgt_dec x y); split; auto; discriminate. Qed.

Lemma gt_false_iff (x y : number) : gt x y = false <-> x <= y.
Proof.
  unfold gt; destruct (Rgt_dec x y); split; intros; try discriminate; lra.
Qed.

Lemma lt_true_iff (x y : number) : lt x y = true <-> x < y.
Proof. unfold lt; destruct (Rlt_dec x y); split; auto; discriminate. Qed.

Lemma lt_false_iff (x y : number) : lt x y = false <-> y <= x.
Proof.
  unfold lt; destruct (Rlt_dec x y); split; intros; try discriminate; lra.
Qed.

Lemma strict_eq_true_iff (x y : number) : strict_eq x y = true <-> x = y.
Proof.
  unfold strict_eq; destruct (Req_dec_T x y); split; auto; discriminate.
Qed.

Lemma strict_eq_false_iff (x y : number) : strict_eq x y = false <-> x <> y.
Proof.
  unfold strict_eq; destruct (Req_dec_T x y); split; intros;
    try discriminate; auto; contradiction.
Qed.

(** [Math.ceil x] is an integer with [ceil x - 1 < x <= ceil x]. *)
Lemma ceilZ_bounds (x : number) : IZR (ceilZ x) - 1 < x <= IZR (ceilZ x).
Proof.
  unfold ceilZ. destruct (archimed (- x)) as [Hgt Hle].
  rewrite opp_IZR, minus_IZR. lra.
Qed.

(** An integer within one above [x] is its ceiling. *)
Lemma ceilZ_unique (x : number) (n : Z) :
  IZR n - 1 < x <= IZR n -> ceilZ x = n.
Proof.
  intros [Hlo Hhi]. destruct (ceilZ_bounds x) as [Clo Chi].
  assert (IZR (ceilZ x) < IZR n + 1) by lra.
  assert (IZR n < IZR (ceilZ x) + 1) by lra.
  rewrite <- plus_IZR in *.
  apply lt_IZR in H, H0. lia.
Qed.

(** [ceilZ x] is the least integer that is not below [x]. *)
Lemma ceilZ_least (x : number) (m : Z) : x <= IZR m -> (ceilZ x <= m)%Z.
Proof.
  intros Hm. destruct (ceilZ_bounds x) as [Clo _].
  assert (IZR (ceilZ x) < IZR m + 1) by lra.
  rewrite <- plus_IZR in H. apply lt_IZR in H. lia.
Qed.
End NumberFacts.

(* ================================================================= *)
(** * Properties of geolocation.ts *)

Section GeolocationFacts.
Import JsNumber Geolocation Samples.
Local Open Scope R_scope.

(** C1. A polygon with fewer than three vertices contains no point:
    for every point, [isPointInPolygon] answers [false]. *)
Theorem isPointInPolygon_degenerate :
  forall (point : Coordinates) (polygon : list GeofencePolygon),
    (length polygon < 3)%nat -> isPointInPolygon point polygon = false.
Proof.
  intros point polygon Hlen. unfold isPointInPolygon.
  apply Nat.ltb_lt in Hlen. now rewrite Hlen.
Qed.

Lemma isPointInPolygon_degenerate_witness :
  (length [mkCoordinates 0 0; mkCoordinates 0 10] < 3)%nat /\
  isPointInPolygon (mkCoordinates 5 5)
    [mkCoordinates 0 0; mkCoordinates 0 10] = false.
Proof.
  split; [simpl; lia | apply isPointInPolygon_degenerate; simpl; lia].
Defined.

(** ** The square *)

Ltac compare_numbers :=
  repeat match goal with
    | |- context [gt ?a ?b] =>
        first [ rewrite (proj2 (gt_true_iff a b)) by lra
              | rewrite (proj2 (gt_false_iff a b)) by lra ]
    end;
  simpl;
  repeat match goal with
    | |- context [lt ?a ?b] =>
        first [ rewrite (proj2 (lt_true_iff a b)) by (unfold Rdiv; lra)
              | rewrite (proj2 (lt_false_iff a b)) by (unfold Rdiv; lra) ]
    end;
  simpl.

Ltac run_intersect :=
  unfold intersect, at_index, square; simpl; compare_numbers; reflexivity.

(** Point (5,5): only the edge from (10,10) to (10,0) is crossed. *)
Lemma square_centre_edges :
  let p := mkCoordinates 5 5 in
  intersect p square 0 3 = false /\ intersect p square 1 0 = false /\
  intersect p square 2 1 = false /\ intersect p square 3 2 = true.
Proof. repeat split; run_intersect. Qed.

(** Point (20,20): no edge is crossed. *)
Lemma square_far_edges :
  let p := mkCoordinates 20 20 in
  intersect p square 0 3 = false /\ intersect p square 1 0 = false /\
  intersect p square 2 1 = false /\ intersect p square 3 2 = false.
Proof. repeat split; run_intersect. Qed.

Lemma square_contains_centre :
  isPointInPolygon (mkCoordinates 5 5) square = true.
Proof.
  destruct square_centre_edges as (E0 & E1 & E2 & E3).
  unfold isPointInPolygon. change (length square) with 4%nat.
  cbn [Nat.ltb Nat.leb Nat.sub ray_loop]. now rewrite E0, E1, E2, E3.
Qed.

Lemma square_excludes_far :
  isPointInPolygon (mkCoordinates 20 20) square = false.
Proof.
  destruct square_far_edges as (E0 & E1 & E2 & E3).
  unfold isPointInPolygon. change (length square) with 4%nat.
  cbn [Nat.ltb Nat.leb Nat.sub ray_loop]. now rewrite E0, E1, E2, E3.
Qed.

(** C3. For the square with vertices (0,0), (0,10), (10,10), (10,0),
    given as (lat, lng) in that order, [isPointInPolygon] answers
    [true] for the point (5,5) and [false] for the point (20,20). *)
Theorem isPointInPolygon_square :
  isPointInPolygon (mkCoordinates 5 5) square = true /\
  isPointInPolygon (mkCoordinates 20 20) square = false.
Proof.
  split.
  - destruct square_centre_edges as (E0 & E1 & E2 & E3).
    unfold isPointInPolygon. change (length square) with 4%nat.
    cbn [Nat.ltb Nat.leb Nat.sub ray_loop].
    rewrite E0, E1, E2, E3. reflexivity.
  - destruct square_far_edges as (E0 & E1 & E2 & E3).
    unfold isPointInPolygon. change (length square) with 4%nat.
    cbn [Nat.ltb Nat.leb Nat.sub ray_loop].
    rewrite E0, E1, E2, E3. reflexivity.
Qed.

(** ** The guarded run never faults *)

(** When the two end points of an edge lie on different sides of the
    ray, their longitudes differ, so the divisor is not zero. *)
Lemma crossing_divisor_nonzero (yi yj l : number) :
  bool_neq (gt yi l) (gt yj l) = true -> yi <> yj /\ yj - yi <> 0.
Proof.
  intros Hneq.
  assert (yi <> yj) as Hd.
  { intros ->. unfold bool_neq in Hneq. now rewrite xorb_nilpotent in Hneq. }
  split; [exact Hd | lra].
Qed.

Lemma read_guarded_in_range (polygon : list GeofencePolygon) (i : nat) :
  (i < length polygon)%nat ->
  read_guarded polygon i = ret (at_index polygon i).
Proof.
  intros Hi. unfold read_guarded, at_index.
  destruct (nth_error polygon i) as [v|] eqn:E.
  - now rewrite (nth_error_nth polygon i _ E).
  - apply nth_error_None in E. lia.
Qed.

Lemma intersect_guarded_in_range point polygon (i j : nat) :
  (i < length polygon)%nat -> (j < length polygon)%nat ->
  intersect_guarded point polygon i j = ret (intersect point polygon i j).
Proof.
  intros Hi Hj. unfold intersect_guarded, intersect.
  rewrite (read_guarded_in_range polygon i Hi),
          (read_guarded_in_range polygon j Hj).
  cbn [bind ret].
  destruct (bool_neq _ _) eqn:Hside; cbn [andb]; [| reflexivity].
  apply crossing_divisor_nonzero in Hside as [_ Hdiv].
  unfold div_guarded.
  rewrite (proj2 (strict_eq_false_iff _ _) Hdiv). reflexivity.
Qed.

Lemma ray_loop_guarded_in_range point polygon :
  forall (todo i j : nat) (inside : bool),
    (i + todo <= length polygon)%nat -> (j < length polygon)%nat ->
    ray_loop_guarded point polygon todo i j inside
    = ret (ray_loop point polygon todo i j inside).
Proof.
  induction todo as [| todo IH]; intros i j inside Hi Hj; cbn [ray_loop_guarded ray_loop].
  - reflexivity.
  - rewrite intersect_guarded_in_range by lia. cbn [bind ret].
    apply IH; lia.
Qed.

(** C10. The division of the edge test is evaluated only under
    [(yi > lng) !== (yj > lng)], which forces [yi <> yj]: with the
    division guarded against a zero divisor (and the array reads
    against an index out of range), the run of [isPointInPolygon] ends
    without a fault on every point and every polygon, with the answer
    of the unguarded function. *)
Theorem isPointInPolygon_never_divides_by_zero :
  forall (point : Coordinates) (polygon : list GeofencePolygon),
    isPointInPolygon_guarded point polygon
    = inr (isPointInPolygon point polygon).
Proof.
  intros point polygon. unfold isPointInPolygon_guarded, isPointInPolygon.
  destruct (length polygon <? 3)%nat eqn:Hlen; [reflexivity |].
  apply Nat.ltb_ge in Hlen.
  apply ray_loop_guarded_in_range; lia.
Qed.

(** ** Fare *)

(** C2. For both trip types and every distance [d >= 0], the fare is
    [max (base, base + ceil d * 10)], with base 20 for a village trip
    and 40 for an outbound trip, where [ceil d] is the least integer
    not below [d]; the surcharge is then not negative and the fare is
    [base + ceil d * 10].  In particular the fare of a village trip of
    0 km is 20, of a village trip of 1.5 km is 40, and of an outbound
    trip of 0 km is 40. *)
Theorem calculateFare_formula :
  (forall (tripType : TripType) (distanceKm : number),
      0 <= distanceKm ->
      exists n : Z,
        (distanceKm <= IZR n /\
         forall m : Z, distanceKm <= IZR m -> (n <= m)%Z) /\
        let base := match tripType with village => 20 | outbound => 40 end in
        calculateFare tripType distanceKm = Rmax base (base + IZR n * 10) /\
        calculateFare tripType distanceKm = base + IZR n * 10) /\
  calculateFare village 0 = 20 /\
  calculateFare village 1.5 = 40 /\
  calculateFare outbound 0 = 40.
Proof.
  assert (Hgen : forall t d, 0 <= d ->
    calculateFare t d = baseFare t + IZR (ceilZ d) * 10).
  { intros t d Hd. unfold calculateFare, Math_max, Math_ceil, RATE_PER_KM.
    destruct (ceilZ_bounds d) as [_ Hhi].
    apply Rmax_right. lra. }
  split; [| repeat split].
  - intros t d Hd. exists (ceilZ d). split; [split |].
    + apply ceilZ_bounds.
    + apply ceilZ_least.
    + cbn zeta. split.
      * unfold calculateFare, Math_max, Math_ceil, RATE_PER_KM.
        now destruct t.
      * rewrite (Hgen t d Hd). now destruct t.
  - rewrite Hgen by lra. rewrite (ceilZ_unique 0 0) by lra.
    unfold baseFare, VILLAGE_BASE_FARE. lra.
  - rewrite Hgen by lra. rewrite (ceilZ_unique 1.5 2) by lra.
    unfold baseFare, VILLAGE_BASE_FARE. lra.
  - rewrite Hgen by lra. rewrite (ceilZ_unique 0 0) by lra.
    unfold baseFare, OUTBOUND_BASE_FARE. lra.
Qed.

Lemma calculateFare_formula_witness :
  0 <= 1.5 /\
  exists n : Z,
    (1.5 <= IZR n /\ forall m : Z, 1.5 <= IZR m -> (n <= m)%Z) /\
    calculateFare village 1.5 = Rmax 20 (20 + IZR n * 10) /\
    calculateFare village 1.5 = 20 + IZR n * 10.
Proof.
  split; [lra |].
  exact (proj1 calculateFare_formula village 1.5 ltac:(lra)).
Defined.

(** ** Distance *)

Lemma haversine_term_sym (x y : number) :
  Math_sin (toRad (x - y) / 2) * Math_sin (toRad (x - y) / 2)
  = Math_sin (toRad (y - x) / 2) * Math_sin (toRad (y - x) / 2).
Proof.
  unfold Math_sin, toRad.
  replace ((x - y) * (Math_PI / 180) / 2)
    with (- ((y - x) * (Math_PI / 180) / 2)) by lra.
  rewrite sin_neg. lra.
Qed.

(** C9. Over real arithmetic, the distance of a coordinate to itself
    is 0, and the distance is symmetric in its two arguments. *)
Theorem calculateDistance_zero_and_symmetric :
  (forall p : Coordinates, calculateDistance p p = 0) /\
  (forall a b : Coordinates, calculateDistance a b = calculateDistance b a).
Proof.
  split.
  - intros p. unfold calculateDistance, toRad, Math_sin, Math_sqrt.
    rewrite !Rminus_diag. rewrite !Rmult_0_l.
    replace (0 / 2) with 0 by lra. rewrite sin_0.
    replace (0 * 0 + 0 * 0 * Math_cos (lat p * (Math_PI / 180))
               * Math_cos (lat p * (Math_PI / 180))) with 0 by lra.
    rewrite Rminus_0_r, sqrt_0, sqrt_1.
    unfold Math_atan2. rewrite (proj2 (gt_true_iff 1 0)) by lra.
    replace (0 / 1) with 0 by lra. rewrite atan_0. lra.
  - intros a b. unfold calculateDistance.
    rewrite (haversine_term_sym (lat b) (lat a)),
            (haversine_term_sym (lng b) (lng a)).
    cbn zeta. do 3 f_equal.
    + f_equal. lra.
    + f_equal. f_equal. lra.
Qed.
End GeolocationFacts.

(* ================================================================= *)
(** * Properties of the geofence editor *)

Section GeofenceEditorFacts.
Import JsNumber GeofenceEditor GeofenceEditorSession Samples.
Local Open Scope string_scope.
Local Open Scope nat_scope.
Local Open Scope list_scope.

(** [handleSave] with its call answered at once, written out. *)
Lemma handleSave_unfold (db : Supabase) (r : EditorState) :
  handleSave db r =
  match geofence r with
  | None => toast (ToastError "Need at least 3 vertices to save")
  | Some g =>
      if length (vertices r) <? 3 then
        toast (ToastError "Need at least 3 vertices to save")
      else
        (setIsSaving true ;;
         match update_polygon db (id g) (vertices r) with
         | Some error =>
             setIsSaving false ;;
             toast (ToastError "Failed to save geofence")
         | None =>
             setIsSaving false ;;
             setOriginalVertices (vertices r) ;;
             setIsEditing false ;;
             toast (ToastSuccess "Geofence saved successfully!")
         end)%action
  end.
Proof.
  unfold handleSave, handleSave_async.
  destruct (geofence r) as [g |]; [| reflexivity].
  destruct (length (vertices r) <? 3); [reflexivity |].
  cbn [answered_at_once]. unfold answer. cbn [call_id call_polygon].
  destruct (update_polygon db (id g) (vertices r)); reflexivity.
Qed.

(** ** Equality of vertex sequences *)

Lemma point_eqb_true_iff (p q : GeofencePoint) :
  point_eqb p q = true <-> p = q.
Proof.
  destruct p as [a b], q as [c d]. unfold point_eqb. cbn [lat lng].
  rewrite andb_true_iff, !strict_eq_true_iff. split.
  - intros [-> ->]. reflexivity.
  - intros H. injection H. auto.
Qed.

Lemma points_eqb_true_iff (a b : list GeofencePoint) :
  points_eqb a b = true <-> a = b.
Proof.
  revert b. induction a as [| p a IH]; intros [| q b]; cbn [points_eqb].
  - split; reflexivity.
  - split; discriminate.
  - split; discriminate.
  - rewrite andb_true_iff, point_eqb_true_iff, IH. split.
    + intros [-> ->]. reflexivity.
    + intros H. injection H. auto.
Qed.

Lemma JSON_stringify_differs_iff (a b : list GeofencePoint) :
  JSON_stringify_differs a b = true <-> a <> b.
Proof.
  unfold JSON_stringify_differs. rewrite negb_true_iff.
  rewrite <- (points_eqb_true_iff a b).
  destruct (points_eqb a b); split; intros; try discriminate; try congruence.
Qed.

(** ** Removing by index *)

Lemma filter_from_beyond (index i : nat) (l : list GeofencePoint) :
  index < i -> filter_from (fun _ k => negb (k =? index)) i l = l.
Proof.
  revert i. induction l as [| v l IH]; intros i Hi; cbn [filter_from].
  - reflexivity.
  - destruct (Nat.eqb_spec i index); [lia |]. cbn [negb].
    rewrite IH by lia. reflexivity.
Qed.

Lemma filter_from_removes (index i : nat) (l : list GeofencePoint) :
  i <= index ->
  filter_from (fun _ k => negb (k =? index)) i l
  = firstn (index - i) l ++ skipn (S (index - i)) l.
Proof.
  revert i. induction l as [| v l IH]; intros i Hi; cbn [filter_from].
  - now rewrite firstn_nil, skipn_nil.
  - destruct (Nat.eqb_spec i index) as [-> | Hne]; cbn [negb].
    + rewrite Nat.sub_diag. cbn [firstn skipn app].
      apply filter_from_beyond. lia.
    + rewrite IH by lia.
      replace (index - i) with (S (index - S i)) by lia.
      reflexivity.
Qed.

Lemma Array_filter_removes (index : nat) (l : list GeofencePoint) :
  Array_filter (fun _ k => negb (k =? index)) l
  = firstn index l ++ skipn (S index) l.
Proof.
  unfold Array_filter. rewrite filter_from_removes by lia.
  now rewrite Nat.sub_0_r.
Qed.

(** ** The effect and the render cycle *)

Lemma hasChanges_effect_fields (s : EditorState) :
  geofence (hasChanges_effect s) = geofence s /\
  vertices (hasChanges_effect s) = vertices s /\
  originalVertices (hasChanges_effect s) = originalVertices s /\
  isEditing (hasChanges_effect s) = isEditing s /\
  isSaving (hasChanges_effect s) = isSaving s.
Proof.
  unfold hasChanges_effect.
  destruct (0 <? length (originalVertices s)); repeat split.
Qed.

Lemma render_cycle_fields (h : Action) (s : EditorState) :
  let u := h (mkUpdate s [] false) in
  let r := render_cycle h s in
  geofence (next r) = geofence (next u) /\
  vertices (next r) = vertices (next u) /\
  originalVertices (next r) = originalVertices (next u) /\
  isEditing (next r) = isEditing (next u) /\
  isSaving (next r) = isSaving (next u) /\
  shown r = shown u /\
  deps_changed r = deps_changed u.
Proof.
  cbn zeta. unfold render_cycle.
  destruct (deps_changed (h (mkUpdate s [] false))) eqn:E; cbn [next shown deps_changed].
  - destruct (hasChanges_effect_fields (next (h (mkUpdate s [] false))))
      as (? & ? & ? & ? & ?).
    repeat split; assumption.
  - repeat split; auto.
Qed.

Lemma render_cycle_dirty (h : Action) (s : EditorState) :
  let r := render_cycle h s in
  deps_changed r = true ->
  originalVertices (next r) <> [] ->
  (hasChanges (next r) = true <->
   vertices (next r) <> originalVertices (next r)).
Proof.
  cbn zeta. unfold render_cycle.
  destruct (deps_changed (h (mkUpdate s [] false))) eqn:E;
    cbn [next deps_changed]; [| congruence].
  intros _. set (s' := next (h (mkUpdate s [] false))).
  unfold hasChanges_effect.
  destruct (originalVertices s') as [| v0 rest] eqn:Eo; cbn [length Nat.ltb Nat.leb].
  - rewrite Eo. congruence.
  - intros _. cbn [hasChanges vertices originalVertices setHasChanges].
    rewrite Eo. apply JSON_stringify_differs_iff.
Qed.

(** ** Removal *)

(** C5. The context-menu handler of a marker, which is how a vertex is
    removed, deletes the vertex at the index only if there are more
    than three vertices.  With three vertices or fewer nothing
    happens at all: same state, no message.  With more than three and
    an index under the length, exactly that vertex goes and the
    others keep their order.  In particular a triangle keeps its
    three vertices. *)
Theorem removeVertex_keeps_triangle :
  forall (s : EditorState) (index : nat),
    let u := render_cycle
               (PolygonEditor_contextmenu (polygonEditorProps s) index) s in
    (length (vertices s) <= 3 -> u = mkUpdate s [] false) /\
    (3 < length (vertices s) -> index < length (vertices s) ->
       vertices (next u)
       = firstn index (vertices s) ++ skipn (S index) (vertices s) /\
       length (vertices (next u)) = length (vertices s) - 1) /\
    (vertices (next u) <> vertices s -> 3 < length (vertices s)) /\
    (length (vertices s) = 3 -> length (vertices (next u)) = 3).
Proof.
  intros s index u.
  assert (Hsmall : length (vertices s) <= 3 -> u = mkUpdate s [] false).
  { intros Hlen. subst u. unfold render_cycle, PolygonEditor_contextmenu.
    cbn [polygonEditorProps props_vertices].
    apply Nat.ltb_ge in Hlen. rewrite Hlen. reflexivity. }
  assert (Hlarge : 3 < length (vertices s) ->
            vertices (next u)
            = firstn index (vertices s) ++ skipn (S index) (vertices s)).
  { intros Hlen.
    destruct (render_cycle_fields
                (PolygonEditor_contextmenu (polygonEditorProps s) index) s)
      as (_ & Hv & _).
    fold u in Hv. rewrite Hv. unfold PolygonEditor_contextmenu.
    cbn [polygonEditorProps props_vertices onVertexRemove].
    apply Nat.ltb_lt in Hlen. rewrite Hlen.
    cbn. apply Array_filter_removes. }
  split; [exact Hsmall |]. split; [| split].
  - intros Hlen Hindex. split; [exact (Hlarge Hlen) |].
    rewrite (Hlarge Hlen), length_app, length_firstn, length_skipn. lia.
  - intros Hchanged.
    destruct (Nat.le_gt_cases (length (vertices s)) 3) as [Hle | Hgt];
      [| exact Hgt].
    rewrite (Hsmall Hle) in Hchanged. now cbn in Hchanged.
  - intros H3. rewrite Hsmall by lia. cbn. exact H3.
Qed.

Lemma removeVertex_keeps_triangle_witness :
  (let u := render_cycle
              (PolygonEditor_contextmenu
                 (polygonEditorProps editing_triangle) 1) editing_triangle in
   length (vertices editing_triangle) <= 3 /\
   u = mkUpdate editing_triangle [] false) /\
  (let u := render_cycle
              (PolygonEditor_contextmenu
                 (polygonEditorProps editing_quad) 1) editing_quad in
   3 < length (vertices editing_quad) /\
   1 < length (vertices editing_quad) /\
   vertices (next u) = [v1; v3; v4]).
Proof.
  split.
  - split; [cbn; lia |].
    apply (proj1 (removeVertex_keeps_triangle editing_triangle 1)).
    cbn; lia.
  - split; [cbn; lia |]. split; [cbn; lia |].
    apply (proj1 (proj1 (proj2 (removeVertex_keeps_triangle editing_quad 1))
                    ltac:(cbn; lia) ltac:(cbn; lia))).
Defined.

(** ** Reset *)

Lemma apply_edit_keeps_baseline (s : EditorState) (e : EditOp) :
  originalVertices (apply_edit s e) = originalVertices s.
Proof.
  unfold apply_edit.
  destruct (render_cycle_fields (perform_edit e s) s) as (_ & _ & Ho & _).
  rewrite Ho. clear Ho.
  destruct e as [pos | index pos | index |]; cbn [perform_edit].
  - unfold PolygonEditor_click. cbn [polygonEditorProps props_isEditing].
    destruct (isEditing s); reflexivity.
  - destruct (marker_rendered (polygonEditorProps s) index); reflexivity.
  - destruct (marker_rendered (polygonEditorProps s) index); [| reflexivity].
    unfold PolygonEditor_contextmenu.
    destruct (3 <? length (props_vertices (polygonEditorProps s)));
      reflexivity.
  - reflexivity.
Qed.

Lemma apply_edits_keeps_baseline (es : list EditOp) (s : EditorState) :
  originalVertices (apply_edits es s) = originalVertices s.
Proof.
  unfold apply_edits. revert s.
  induction es as [| e es IH]; intros s; cbn [fold_left].
  - reflexivity.
  - rewrite IH. apply apply_edit_keeps_baseline.
Qed.

(** C6. Whatever sequence of additions, moves, removals and clears is
    applied, the baseline is the one before the sequence, and a reset
    that follows makes the current vertices equal to that baseline:
    the same points in the same order. *)
Theorem reset_restores_baseline :
  forall (es : list EditOp) (s : EditorState),
    let s' := apply_edits es s in
    originalVertices s' = originalVertices s /\
    vertices (next (render_cycle (handleReset s') s'))
    = originalVertices s /\
    originalVertices (next (render_cycle (handleReset s') s'))
    = originalVertices s.
Proof.
  intros es s s'.
  pose proof (apply_edits_keeps_baseline es s) as Hb. fold s' in Hb.
  destruct (render_cycle_fields (handleReset s') s') as (_ & Hv & Ho & _).
  rewrite Hv, Ho. cbn. auto.
Qed.

(** ** Save *)

Lemma handleSave_async_refused (s : EditorState) :
  length (vertices s) < 3 \/ geofence s = None ->
  handleSave_async s
  = Done (toast (ToastError "Need at least 3 vertices to save")).
Proof.
  intros [Hlen | Hnone]; unfold handleSave_async.
  - apply Nat.ltb_lt in Hlen. rewrite Hlen. now destruct (geofence s).
  - now rewrite Hnone.
Qed.

Lemma handleSave_async_sent (s : EditorState) (g : GeofenceData) :
  geofence s = Some g -> 3 <= length (vertices s) ->
  handleSave_async s
  = Await (setIsSaving true) (mkStoreCall (id g) (vertices s))
      (fun error =>
         setIsSaving false ;;
         match error with
         | Some _ => toast (ToastError "Failed to save geofence")
         | None =>
             setOriginalVertices (vertices s) ;;
             setIsEditing false ;;
             toast (ToastSuccess "Geofence saved successfully!")
         end)%action.
Proof.
  intros Hg Hlen. unfold handleSave_async. rewrite Hg.
  apply Nat.ltb_ge in Hlen. now rewrite Hlen.
Qed.

(** C4 (amended). In editing mode, a press on Save with fewer than
    three vertices, or with no geofence record loaded, sends no call to
    the store, shows the validation error and changes nothing.  With a
    record loaded and at least three vertices it sends exactly one
    call, with the record's id and the current vertices.  If the store
    answers with an error, the error toast is shown and the answer
    changes neither baseline, nor vertices, nor mode: they are what
    they were when the answer arrived, and what they were at the press
    if nothing happened while the call was pending.  If the store
    accepts, the success toast is shown, the baseline becomes the
    vertices that were sent and the mode is left for viewing; the
    current vertices are those of the moment of the answer, so that
    baseline and current vertices are equal if nothing happened while
    the call was pending. *)
Theorem handleSave_outcomes :
  forall (db : Supabase) (during : list Op) (s : EditorState),
    isEditing s = true ->
    let run := save_run db during s in
    (length (vertices s) < 3 \/ geofence s = None ->
     store_calls run = [] /\
     save_toasts run = [ToastError "Need at least 3 vertices to save"] /\
     final run = s) /\
    (forall g,
       geofence s = Some g -> 3 <= length (vertices s) ->
       let arrival := state_at_answer db during (setIsSaving true) s in
       store_calls run = [mkStoreCall (id g) (vertices s)] /\
       (forall error,
          update_polygon db (id g) (vertices s) = Some error ->
          save_toasts run = [ToastError "Failed to save geofence"] /\
          originalVertices (final run) = originalVertices arrival /\
          vertices (final run) = vertices arrival /\
          isEditing (final run) = isEditing arrival /\
          (during = [] ->
           originalVertices (final run) = originalVertices s /\
           vertices (final run) = vertices s /\
           isEditing (final run) = true)) /\
       (update_polygon db (id g) (vertices s) = None ->
        save_toasts run = [ToastSuccess "Geofence saved successfully!"] /\
        originalVertices (final run) = vertices s /\
        isEditing (final run) = false /\
        vertices (final run) = vertices arrival /\
        (during = [] ->
         vertices (final run) = vertices s /\
         originalVertices (final run) = vertices (final run)))).
Proof.
  intros db during s Hedit run. subst run. split.
  - intros Hrefused. unfold save_run.
    rewrite (handleSave_async_refused s Hrefused). cbn. repeat split.
  - intros g Hg Hlen arrival. unfold save_run.
    rewrite (handleSave_async_sent s g Hg Hlen).
    cbn [store_calls save_toasts final]. fold arrival.
    unfold answer. cbn [call_id call_polygon].
    split; [reflexivity |]. split.
    + intros error Hfail. rewrite Hfail.
      split; [reflexivity |]. split; [reflexivity |].
      split; [reflexivity |]. split; [reflexivity |].
      intros ->. subst arrival. cbn. repeat split. exact Hedit.
    + intros Hok. rewrite Hok.
      pose proof (render_cycle_fields
                    (setIsSaving false;;
                     setOriginalVertices (vertices s);;
                     setIsEditing false;;
                     toast (ToastSuccess "Geofence saved successfully!"))%action
                    arrival) as F.
      cbn zeta in F. destruct F as (_ & Hv & Ho & He & _ & Hs & _).
      split; [rewrite Hs; reflexivity |].
      split; [rewrite Ho; reflexivity |].
      split; [rewrite He; reflexivity |].
      split; [rewrite Hv; reflexivity |].
      intros ->. rewrite Hv, Ho. subst arrival. cbn. split; reflexivity.
Qed.

Lemma handleSave_outcomes_witness :
  isEditing editing_quad = true /\
  (let run := save_run db_ok [edit (addVertex v1)] editing_quad in
   store_calls run = [mkStoreCall "g-1" [v1; v2; v3; v4]] /\
   originalVertices (final run) = [v1; v2; v3; v4] /\
   isEditing (final run) = false) /\
  (let run := save_run db_down [] editing_quad in
   originalVertices (final run) = [v1; v2; v3] /\
   vertices (final run) = [v1; v2; v3; v4] /\
   isEditing (final run) = true) /\
  (let run := save_run db_ok [] editing_pair in
   store_calls run = [] /\ final run = editing_pair).
Proof.
  assert (3 <= length (vertices editing_quad)) as Hquad by (cbn; lia).
  assert (length (vertices editing_pair) < 3) as Hpair by (cbn; lia).
  split; [reflexivity |]. split; [| split].
  - destruct (handleSave_outcomes db_ok [edit (addVertex v1)] editing_quad
                eq_refl) as (_ & Hsent).
    destruct (Hsent pilar eq_refl Hquad) as (Hcall & _ & Hok).
    destruct (Hok eq_refl) as (_ & Ho & He & _).
    cbn zeta. split; [exact Hcall |]. split; [exact Ho | exact He].
  - destruct (handleSave_outcomes db_down [] editing_quad eq_refl)
      as (_ & Hsent).
    destruct (Hsent pilar eq_refl Hquad) as (_ & Hfail & _).
    destruct (Hfail (mkPostgrestError "unavailable") eq_refl)
      as (_ & _ & _ & _ & Hquiet).
    exact (Hquiet eq_refl).
  - destruct (handleSave_outcomes db_ok [] editing_pair eq_refl)
      as (Hrefused & _).
    destruct (Hrefused (or_introl Hpair)) as (Hcall & _ & Hfinal).
    cbn zeta. split; [exact Hcall | exact Hfinal].
Defined.

(** C4, as stated, fails where no geofence record is loaded: a press
    on Save with three vertices, a store that accepts every call and
    nothing else happening sends no call, leaves the baseline empty and
    stays in editing mode. *)
Lemma handleSave_without_record_counterexample :
  let s := editing_unloaded_triangle in
  let run := save_run db_ok [] s in
  isEditing s = true /\
  3 <= length (vertices s) /\
  (forall id vs, update_polygon db_ok id vs = None) /\
  store_calls run = [] /\
  ~ (originalVertices (final run) = vertices (final run) /\
     isEditing (final run) = false).
Proof.
  cbn. split; [reflexivity |]. split; [lia |]. split; [reflexivity |].
  split; [reflexivity |].
  intros [Habs _]. discriminate Habs.
Qed.

(** ** The dirty flag *)

Lemma perform_keeps_hasChanges (db : Supabase) (o : Op) (s : EditorState) :
  hasChanges (next (perform db o s (mkUpdate s [] false))) = hasChanges s.
Proof.
  destruct o as [[pos | index pos | index |] | | | | |];
    cbn [perform perform_edit].
  - unfold PolygonEditor_click. cbn [polygonEditorProps props_isEditing].
    destruct (isEditing s); reflexivity.
  - destruct (marker_rendered _ _); reflexivity.
  - destruct (marker_rendered _ _); [| reflexivity].
    unfold PolygonEditor_contextmenu. destruct (3 <? _); reflexivity.
  - reflexivity.
  - reflexivity.
  - reflexivity.
  - rewrite handleSave_unfold. destruct (geofence s) as [g |]; [| reflexivity].
    destruct (length (vertices s) <? 3); [reflexivity |].
    destruct (update_polygon db (id g) (vertices s)); reflexivity.
  - reflexivity.
  - unfold fetchGeofence. destruct (select_geofence db _); reflexivity.
Qed.

Lemma perform_untouched (db : Supabase) (o : Op) (s : EditorState) :
  let u := perform db o s (mkUpdate s [] false) in
  deps_changed u = false ->
  vertices (next u) = vertices s /\
  originalVertices (next u) = originalVertices s.
Proof.
  cbn zeta.
  destruct o as [[pos | index pos | index |] | | | | |];
    cbn [perform perform_edit].
  - unfold PolygonEditor_click. cbn [polygonEditorProps props_isEditing].
    destruct (isEditing s); cbn; intros; try discriminate; auto.
  - destruct (marker_rendered _ _); cbn; intros; try discriminate; auto.
  - destruct (marker_rendered _ _); [| cbn; auto].
    unfold PolygonEditor_contextmenu.
    destruct (3 <? _); cbn; intros; try discriminate; auto.
  - cbn; intros; discriminate.
  - cbn; intros; discriminate.
  - cbn; intros; discriminate.
  - rewrite handleSave_unfold. destruct (geofence s) as [g |]; [| cbn; auto].
    destruct (length (vertices s) <? 3); [cbn; auto |].
    destruct (update_polygon db (id g) (vertices s)); cbn; intros;
      try discriminate; auto.
  - cbn; auto.
  - unfold fetchGeofence.
    destruct (select_geofence db _); cbn; intros; try discriminate; auto.
Qed.

(** C8 (amended). After every operation that sets the current
    vertices or the baseline, if the baseline is not empty the dirty
    flag is true exactly when the current vertices differ from the
    baseline (in length, order or values).  If the baseline is empty
    the flag keeps the value it had.  An operation that sets neither
    leaves the two sequences and the flag as they were. *)
Theorem hasChanges_tracks_baseline :
  forall (db : Supabase) (o : Op) (s : EditorState),
    let u := render_cycle (perform db o s) s in
    (deps_changed u = true -> originalVertices (next u) <> [] ->
       (hasChanges (next u) = true <->
        vertices (next u) <> originalVertices (next u))) /\
    (originalVertices (next u) = [] ->
       hasChanges (next u) = hasChanges s) /\
    (deps_changed u = false ->
       vertices (next u) = vertices s /\
       originalVertices (next u) = originalVertices s /\
       hasChanges (next u) = hasChanges s).
Proof.
  intros db o s u. split; [| split].
  - apply render_cycle_dirty.
  - subst u. unfold render_cycle.
    destruct (deps_changed (perform db o s (mkUpdate s [] false)));
      cbn [next].
    + unfold hasChanges_effect. intros Hempty.
      destruct (0 <? length (originalVertices
                               (next (perform db o s (mkUpdate s [] false)))))
        eqn:Hlen.
      * cbn [originalVertices setHasChanges] in Hempty.
        rewrite Hempty in Hlen. discriminate Hlen.
      * apply perform_keeps_hasChanges.
    + intros _. apply perform_keeps_hasChanges.
  - subst u. unfold render_cycle.
    destruct (deps_changed (perform db o s (mkUpdate s [] false))) eqn:Hd;
      cbn [deps_changed next]; [discriminate |].
    intros _. destruct (perform_untouched db o s Hd) as [Hv Ho].
    repeat split; auto using perform_keeps_hasChanges.
Qed.

Lemma hasChanges_tracks_baseline_witness :
  let u := render_cycle
             (perform db_ok (edit (addVertex v4)) editing_triangle)
             editing_triangle in
  deps_changed u = true /\ originalVertices (next u) <> [] /\
  (hasChanges (next u) = true <->
   vertices (next u) <> originalVertices (next u)).
Proof.
  cbn zeta. split; [reflexivity |]. split; [discriminate |].
  apply (proj1 (hasChanges_tracks_baseline
                  db_ok (edit (addVertex v4)) editing_triangle));
    [reflexivity | discriminate].
Defined.

(** C8, as stated, fails where the baseline is empty: adding a vertex
    makes the current vertices differ from the baseline, and the
    dirty flag stays false. *)
Lemma hasChanges_empty_baseline_counterexample :
  let u := render_cycle
             (perform db_down (edit (addVertex v1)) editing_unloaded)
             editing_unloaded in
  deps_changed u = true /\
  vertices (next u) = [v1] /\
  originalVertices (next u) = [] /\
  hasChanges (next u) = false /\
  ~ (hasChanges (next u) = true <->
     vertices (next u) <> originalVertices (next u)).
Proof.
  cbn. do 4 (split; [reflexivity |]). intros [_ Habs].
  assert ([v1] <> @nil GeofencePoint) as Hne by discriminate.
  specialize (Habs Hne). discriminate Habs.
Qed.
End GeofenceEditorFacts.

(* ================================================================= *)
(** * Properties of the drop-off selection *)

Section BookingFlowFacts.
Import JsNumber Geolocation BookingFlow Samples.
Local Open Scope string_scope.

(** A station id that is given, not empty and found in the station
    list: the trip is outbound and the station found is recorded,
    whatever the geofence says about the coordinate. *)
Lemma handleDropoffSelect_known_station
    (coords : Coordinates) (stationId : option string)
    (station : Station) (s0 : State) :
  truthy stationId = true ->
  find (fun s => id_strict_eq (id s) stationId) (stations s0) = Some station ->
  let s := handleDropoffSelect coords stationId s0 in
  tripType s = outbound /\ selectedStation s = Some station /\
  id_strict_eq (id station) stationId = true /\
  dropoffLocation s = Some coords /\ step s = confirm.
Proof.
  intros Hgiven Hfound. unfold handleDropoffSelect.
  rewrite Hgiven, Hfound. cbn. repeat split.
  now apply find_some in Hfound.
Qed.

(** No station id (absent or empty): the trip is a village trip when
    the coordinate is inside the geofence and an outbound trip when it
    is not, with no station, whatever the classification was before. *)
Lemma handleDropoffSelect_no_station
    (coords : Coordinates) (stationId : option string) (s0 : State) :
  truthy stationId = false ->
  let s := handleDropoffSelect coords stationId s0 in
  tripType s
    = (if isPointInPolygon coords (geofence s0) then village else outbound) /\
  selectedStation s = None /\
  dropoffLocation s = Some coords /\ step s = confirm.
Proof.
  intros Habsent. unfold handleDropoffSelect. rewrite Habsent.
  destruct (isPointInPolygon coords (geofence s0)); cbn; repeat split.
Qed.

(** A station id that is given and not found in the station list:
    neither the trip type nor the station is set. *)
Lemma handleDropoffSelect_unknown_station
    (coords : Coordinates) (stationId : option string) (s0 : State) :
  truthy stationId = true ->
  find (fun s => id_strict_eq (id s) stationId) (stations s0) = None ->
  let s := handleDropoffSelect coords stationId s0 in
  tripType s = tripType s0 /\ selectedStation s = selectedStation s0 /\
  dropoffLocation s = Some coords /\ step s = confirm.
Proof.
  intros Hgiven Hmissing. unfold handleDropoffSelect.
  rewrite Hgiven, Hmissing. cbn. repeat split.
Qed.

(** C7, in a flow whose geofence is the square and whose station list
    is empty: after the pickup (5,5) is accepted, the click on the
    marker of station "S9" at (20,20), which is outside the geofence
    and not in the flow's station list, leaves the classification at
    its initial [village] with no station, where the drop-off rule asks
    for [outbound]. *)
Theorem handleDropoffSelect_unknown_station_is_sticky :
  let coords := mkCoordinates (latitude terminal) (longitude terminal) in
  let s0 := selecting_dropoff in
  let s := handleDropoffSelect coords (Some (id terminal)) s0 in
  (forall db,
     BookingSession.flow
       (BookingSession.run db [BookingSession.MapClick (mkCoordinates 5 5)]
          (BookingSession.initialWorld square []))
     = s0) /\
  find (fun st => id_strict_eq (id st) (Some (id terminal))) (stations s0)
  = None /\
  isPointInPolygon coords (geofence s0) = false /\
  tripType s0 = village /\
  tripType s = village /\
  selectedStation s = None /\
  step s = confirm /\
  (forall db,
     tripType
       (BookingSession.flow
          (BookingSession.run db
             [BookingSession.MapClick (mkCoordinates 5 5);
              BookingSession.StationClick terminal]
             (BookingSession.initialWorld square [])))
     = village).
Proof.
  cbn zeta.
  assert (Hreach : forall db,
    BookingSession.run db [BookingSession.MapClick (mkCoordinates 5 5)]
      (BookingSession.initialWorld square [])
    = BookingSession.mkWorld selecting_dropoff "" None None [] [] true).
  { intros db. unfold BookingSession.run. cbn [fold_left].
    unfold BookingSession.dispatch, BookingSession.handler,
      BookingSession.handlePickupSelect, BookingSession.initialWorld.
    cbn -[isPointInPolygon]. rewrite square_contains_centre. reflexivity. }
  split; [intros db; now rewrite Hreach |].
  split; [reflexivity |].
  split; [exact square_excludes_far |].
  split; [reflexivity |]. split; [reflexivity |].
  split; [reflexivity |]. split; [reflexivity |].
  intros db.
  change [BookingSession.MapClick (mkCoordinates 5 5);
          BookingSession.StationClick terminal]
    with ([BookingSession.MapClick (mkCoordinates 5 5)]
          ++ [BookingSession.StationClick terminal])%list.
  unfold BookingSession.run in *. rewrite fold_left_app, Hreach.
  reflexivity.
Qed.
End BookingFlowFacts.

(* ================================================================= *)
(** * The geofence test as a count of crossed edges *)

Section EdgeFacts.
Import JsNumber Geolocation Edges.
Local Open Scope R_scope.

Variable point : Coordinates.

Lemma last_cons_default (v d : GeofencePolygon) (l : list GeofencePolygon) :
  last (v :: l) d = last l v.
Proof.
  revert v d. induction l as [| w l IH]; intros v d; [reflexivity |].
  change (last (v :: w :: l) d) with (last (w :: l) d).
  now rewrite !IH.
Qed.

Lemma walk_nil (prev : GeofencePolygon) : walk point prev [] = false.
Proof. reflexivity. Qed.

Lemma walk_cons (prev v : GeofencePolygon) (rest : list GeofencePolygon) :
  walk point prev (v :: rest) = xorb (crosses point v prev) (walk point v rest).
Proof.
  unfold walk. cbn [edges_from filter fst snd].
  destruct (crosses point v prev); cbn [length xorb].
  - rewrite Nat.odd_succ, <- Nat.negb_odd. reflexivity.
  - reflexivity.
Qed.

Lemma walk_snoc (prev x : GeofencePolygon) (l : list GeofencePolygon) :
  walk point prev (l ++ [x]) = xorb (walk point prev l) (crosses point x (last l prev)).
Proof.
  revert prev. induction l as [| v l IH]; intros prev.
  - cbn [app last]. rewrite walk_cons, walk_nil.
    now rewrite xorb_false_r, xorb_false_l.
  - cbn [app]. rewrite !walk_cons, IH, last_cons_default.
    now rewrite xorb_assoc.
Qed.

Lemma intersect_crosses (polygon : list GeofencePolygon) (i j : nat) :
  intersect point polygon i j
  = crosses point (at_index polygon i) (at_index polygon j).
Proof. reflexivity. Qed.

Lemma skipn_at_index (polygon : list GeofencePolygon) (i : nat) :
  (i < length polygon)%nat ->
  skipn i polygon = at_index polygon i :: skipn (S i) polygon.
Proof.
  revert i. induction polygon as [| v l IH]; intros i Hi; cbn in Hi.
  - lia.
  - destruct i as [| i]; [reflexivity |].
    cbn [skipn]. rewrite IH by lia. reflexivity.
Qed.

Lemma ray_loop_walk (polygon : list GeofencePolygon) :
  forall (todo i j : nat) (inside : bool),
    (i + todo = length polygon)%nat ->
    ray_loop point polygon todo i j inside
    = xorb inside (walk point (at_index polygon j) (skipn i polygon)).
Proof.
  induction todo as [| todo IH]; intros i j inside Hlen; cbn [ray_loop].
  - rewrite skipn_all2 by lia. now rewrite walk_nil, xorb_false_r.
  - rewrite IH by lia.
    rewrite (skipn_at_index polygon i) by lia.
    rewrite walk_cons, intersect_crosses.
    destruct (crosses point (at_index polygon i) (at_index polygon j)),
      inside; cbn; try reflexivity;
      now destruct (walk _ _).
Qed.

Lemma at_index_last (polygon : list GeofencePolygon) :
  at_index polygon (length polygon - 1) = last polygon (mkCoordinates 0 0).
Proof.
  unfold at_index. induction polygon as [| v l IH]; [reflexivity |].
  destruct l as [| w l]; [reflexivity |].
  cbn [length Nat.sub] in *. rewrite Nat.sub_0_r in IH.
  cbn [nth last]. exact IH.
Qed.

Lemma isPointInPolygon_walk (polygon : list GeofencePolygon) :
  (3 <= length polygon)%nat ->
  isPointInPolygon point polygon
  = walk point (last polygon (mkCoordinates 0 0)) polygon.
Proof.
  intros Hlen. unfold isPointInPolygon.
  apply Nat.ltb_ge in Hlen. rewrite Hlen.
  rewrite ray_loop_walk by lia.
  now rewrite at_index_last, xorb_false_l.
Qed.

(** X1. [isPointInPolygon] answers [true] exactly when the polygon has
    at least three vertices and the ray from the point crosses an odd
    number of its edges, the edges being the pairs of consecutive
    vertices and the pair of the first and the last vertex. *)
Theorem isPointInPolygon_odd_crossings :
  forall polygon : list GeofencePolygon,
    isPointInPolygon point polygon
    = (3 <=? length polygon)%nat && Nat.odd (crossing_count point polygon).
Proof.
  intros polygon.
  destruct (3 <=? length polygon)%nat eqn:Hlen; cbn [andb].
  - apply Nat.leb_le in Hlen. now rewrite isPointInPolygon_walk.
  - apply Nat.leb_gt in Hlen. unfold isPointInPolygon.
    apply Nat.ltb_lt in Hlen. now rewrite Hlen.
Qed.

Lemma cycle_walk (v : GeofencePolygon) (rest : list GeofencePolygon) :
  walk point (last (v :: rest) (mkCoordinates 0 0)) (v :: rest)
  = walk point v (rest ++ [v]).
Proof.
  rewrite walk_cons, walk_snoc, last_cons_default.
  apply xorb_comm.
Qed.

(** X2. The answer does not depend on the vertex the polygon starts
    with: the polygon that starts one vertex later gives the same
    answer for every point. *)
Theorem isPointInPolygon_rotate :
  forall polygon : list GeofencePolygon,
    isPointInPolygon point (rotate polygon) = isPointInPolygon point polygon.
Proof.
  intros [| v rest]; [reflexivity |].
  destruct (Nat.le_gt_cases 3 (length (v :: rest))) as [Hlen | Hlen].
  - rewrite !isPointInPolygon_walk; cbn [rotate];
      [| exact Hlen | rewrite length_app; cbn [length] in *; lia].
    rewrite cycle_walk, last_last. reflexivity.
  - unfold isPointInPolygon. cbn [rotate].
    replace (length (rest ++ [v])) with (length (v :: rest))
      by (rewrite length_app; cbn [length]; lia).
    apply Nat.ltb_lt in Hlen. now rewrite Hlen.
Qed.

End EdgeFacts.

(* ================================================================= *)
(** * The geofence test on longitude ranges and rectangles; fares *)

Section BoundingBoxFacts.
Import JsNumber Geolocation Edges Samples.
Local Open Scope R_scope.

Lemma walk_sides (point : Coordinates) (side : GeofencePolygon -> bool)
    (P : GeofencePolygon -> Prop) :
  (forall a b, P a -> P b -> crosses point a b = xorb (side a) (side b)) ->
  forall (l : list GeofencePolygon) (prev : GeofencePolygon),
    P prev -> Forall P l ->
    walk point prev l = xorb (side prev) (side (last l prev)).
Proof.
  intros Hcross. induction l as [| v l IH]; intros prev Hprev Hall.
  - cbn [last]. now rewrite walk_nil, xorb_nilpotent.
  - inversion Hall as [| ? ? Hv Hl]; subst.
    rewrite walk_cons, (IH v Hv Hl), (Hcross v prev Hv Hprev).
    rewrite last_cons_default.
    destruct (side v), (side prev), (side (last l v)); reflexivity.
Qed.

Lemma last_idem (d : GeofencePolygon) (l : list GeofencePolygon) :
  last l (last l d) = last l d.
Proof.
  destruct l as [| v l]; [reflexivity |].
  now rewrite !last_cons_default.
Qed.

Lemma last_Forall (P : GeofencePolygon -> Prop) (d : GeofencePolygon)
    (l : list GeofencePolygon) :
  l <> [] -> Forall P l -> P (last l d).
Proof.
  intros Hne Hall.
  rewrite (app_removelast_last d Hne) in Hall.
  apply Forall_app in Hall as [_ Hlast].
  now inversion Hlast.
Qed.

Lemma isPointInPolygon_sides (point : Coordinates)
    (side : GeofencePolygon -> bool) (P : GeofencePolygon -> Prop)
    (polygon : list GeofencePolygon) :
  (forall a b, P a -> P b -> crosses point a b = xorb (side a) (side b)) ->
  Forall P polygon ->
  isPointInPolygon point polygon = false.
Proof.
  intros Hcross Hall.
  destruct (Nat.le_gt_cases 3 (length polygon)) as [Hlen | Hlen].
  - assert (polygon <> []) as Hne by (intros ->; cbn in Hlen; lia).
    rewrite (isPointInPolygon_walk point polygon Hlen).
    rewrite (walk_sides point side P Hcross polygon _
               (last_Forall P _ polygon Hne Hall) Hall).
    rewrite last_idem. apply xorb_nilpotent.
  - unfold isPointInPolygon. apply Nat.ltb_lt in Hlen. now rewrite Hlen.
Qed.

(** X4. A point whose longitude is outside the range of the
    longitudes of the vertices is outside the polygon: if every vertex
    has its longitude at most that of the point, or every vertex has a
    greater longitude than the point, the answer is [false]. *)
Theorem isPointInPolygon_outside_longitude_range :
  forall (point : Coordinates) (polygon : list GeofencePolygon),
    (forall v, In v polygon -> lng v <= lng point) \/
    (forall v, In v polygon -> lng point < lng v) ->
    isPointInPolygon point polygon = false.
Proof.
  intros point polygon [H | H]; apply Forall_forall in H.
  - refine (isPointInPolygon_sides point (fun _ => false)
              (fun v => lng v <= lng point) polygon _ H).
    intros a b Ha Hb. unfold crosses.
    rewrite (proj2 (gt_false_iff _ _) Ha), (proj2 (gt_false_iff _ _) Hb).
    reflexivity.
  - refine (isPointInPolygon_sides point (fun _ => false)
              (fun v => lng point < lng v) polygon _ H).
    intros a b Ha Hb. unfold crosses.
    rewrite (proj2 (gt_true_iff _ _) Ha), (proj2 (gt_true_iff _ _) Hb).
    reflexivity.
Qed.

Lemma isPointInPolygon_outside_longitude_range_witness :
  (forall v, In v square -> lng v <= lng (mkCoordinates 5 12)) /\
  isPointInPolygon (mkCoordinates 5 12) square = false.
Proof.
  assert (forall v, In v square -> lng v <= lng (mkCoordinates 5 12)) as H.
  { intros v [<- | [<- | [<- | [<- | []]]]]; cbn; lra. }
  split; [exact H |].
  apply isPointInPolygon_outside_longitude_range. left. exact H.
Defined.

(** X5. For a rectangle with latitudes [a < b] and longitudes [c < d],
    a point is inside exactly when [a <= lat < b] and [c <= lng < d]:
    the sides at the lower latitude and the lower longitude belong to
    the rectangle, the two other sides do not. *)
Theorem isPointInPolygon_rectangle :
  forall (point : Coordinates) (a b c d : number),
    a < b -> c < d ->
    (isPointInPolygon point (rectangle a b c d) = true <->
     a <= lat point < b /\ c <= lng point < d).
Proof.
  intros [x y] a b c d Hab Hcd. unfold number in *.
  unfold isPointInPolygon, rectangle.
  cbn [length Nat.ltb Nat.leb Nat.sub ray_loop].
  unfold intersect, at_index. cbn [nth lat lng].
  replace ((b - a) * (y - c) / (c - c) + a) with (((b - a) * (y - c)) * / 0 + a)
    by (unfold Rdiv; now rewrite Rminus_diag).
  replace ((a - a) * (y - d) / (c - d) + a) with a by (unfold Rdiv; ring).
  replace ((a - b) * (y - d) / (d - d) + b) with (((a - b) * (y - d)) * / 0 + b)
    by (unfold Rdiv; now rewrite Rminus_diag).
  replace ((b - b) * (y - c) / (d - c) + b) with b by (unfold Rdiv; ring).
  unfold bool_neq.
  destruct (gt c y) eqn:Gc, (gt d y) eqn:Gd;
    destruct (lt x a) eqn:La, (lt x b) eqn:Lb; cbn;
    repeat match goal with
      | H : gt _ _ = true |- _ => apply gt_true_iff in H
      | H : gt _ _ = false |- _ => apply gt_false_iff in H
      | H : lt _ _ = true |- _ => apply lt_true_iff in H
      | H : lt _ _ = false |- _ => apply lt_false_iff in H
      end;
    split; intros; try discriminate; try lra; try reflexivity.
Qed.

Lemma isPointInPolygon_rectangle_witness :
  0 < 10 /\ 0 < 10 /\
  (isPointInPolygon (mkCoordinates 5 5) (rectangle 0 10 0 10) = true <->
   0 <= lat (mkCoordinates 5 5) < 10 /\ 0 <= lng (mkCoordinates 5 5) < 10).
Proof.
  split; [lra |]. split; [lra |].
  apply isPointInPolygon_rectangle; lra.
Defined.

(** ** Fares *)

Lemma ceilZ_monotone (x y : number) : x <= y -> (ceilZ x <= ceilZ y)%Z.
Proof.
  intros Hxy. apply ceilZ_least.
  destruct (ceilZ_bounds y) as [_ Hy]. lra.
Qed.

(** X6. The fare never goes below the base fare of the trip type, it
    is the base fare for every distance that is zero or negative, and
    for a distance [d >= 0] it lies between [base + 10 d] and
    [base + 10 d + 10]. *)
Theorem calculateFare_bounds :
  forall (tripType : TripType) (distanceKm : number),
    baseFare tripType <= calculateFare tripType distanceKm /\
    (distanceKm <= 0 -> calculateFare tripType distanceKm = baseFare tripType) /\
    (0 <= distanceKm ->
     baseFare tripType + 10 * distanceKm <= calculateFare tripType distanceKm
     < baseFare tripType + 10 * distanceKm + 10).
Proof.
  intros t d. unfold calculateFare, Math_max, Math_ceil, RATE_PER_KM.
  destruct (ceilZ_bounds d) as [Hlo Hhi].
  split; [apply Rmax_l |]. split.
  - intros Hd. apply Rmax_left.
    assert (ceilZ d <= 0)%Z as Hc by (apply ceilZ_least; exact Hd).
    apply IZR_le in Hc. lra.
  - intros Hd. rewrite Rmax_right by lra. lra.
Qed.

Lemma calculateFare_bounds_witness :
  -3 <= 0 /\ calculateFare village (-3) = baseFare village.
Proof.
  split; [lra |].
  apply (proj1 (proj2 (calculateFare_bounds village (-3)))). lra.
Defined.

(** X7. The fare does not decrease when the distance grows, and for
    the same distance an outbound trip costs 20 more than a village
    trip. *)
Theorem calculateFare_monotone :
  forall (tripType : TripType) (d1 d2 : number),
    d1 <= d2 ->
    calculateFare tripType d1 <= calculateFare tripType d2 /\
    calculateFare outbound d1 = calculateFare village d1 + 20.
Proof.
  intros t d1 d2 Hd. unfold calculateFare, Math_max, Math_ceil, RATE_PER_KM.
  pose proof (IZR_le _ _ (ceilZ_monotone d1 d2 Hd)) as Hc.
  split.
  - apply Rmax_lub.
    + apply Rmax_l.
    + eapply Rle_trans; [| apply Rmax_r]. lra.
  - unfold baseFare, OUTBOUND_BASE_FARE, VILLAGE_BASE_FARE.
    unfold Rmax.
    destruct (Rle_dec 40 (40 + IZR (ceilZ d1) * 10)),
             (Rle_dec 20 (20 + IZR (ceilZ d1) * 10)); lra.
Qed.

Lemma calculateFare_monotone_witness :
  1.2 <= 3.7 /\ calculateFare village 1.2 <= calculateFare village 3.7.
Proof.
  split; [lra |].
  apply (proj1 (calculateFare_monotone village 1.2 3.7 ltac:(lra))).
Defined.

End BoundingBoxFacts.

(* ================================================================= *)
(** * Properties of the location check *)

Section LocationFacts.
Import JsNumber Geolocation UseGeolocation.
Local Open Scope string_scope.



(** X10. The message of a position error tells its category: two
    errors with the same message are both permission errors, or both
    unavailable, or both timeouts, or neither has one of the three
    codes; and no position error has the message of a failure that is
    not a position error. *)
Theorem getGeolocationErrorMessage_injective :
  forall e1 e2 : GeolocationPositionError,
    let category e :=
      if Nat.eqb (code e) 1 then 1
      else if Nat.eqb (code e) 2 then 2
      else if Nat.eqb (code e) 3 then 3 else 0 in
    (getGeolocationErrorMessage e1 = getGeolocationErrorMessage e2 <->
     category e1 = category e2) /\
    getGeolocationErrorMessage e1 <> "Failed to get your location".
Proof.
  intros [c1] [c2] category. subst category.
  unfold getGeolocationErrorMessage, PERMISSION_DENIED, POSITION_UNAVAILABLE,
    TIMEOUT. cbn [code].
  destruct (Nat.eqb c1 1), (Nat.eqb c1 2), (Nat.eqb c1 3),
    (Nat.eqb c2 1), (Nat.eqb c2 2), (Nat.eqb c2 3);
    (split; [split; intros H; try reflexivity; try discriminate H
            | discriminate]).
Qed.

Lemma getGeolocationErrorMessage_injective_witness :
  getGeolocationErrorMessage (mkPositionError 3)
  = getGeolocationErrorMessage (mkPositionError 3) /\
  getGeolocationErrorMessage (mkPositionError 3)
  <> "Failed to get your location".
Proof.
  split; [reflexivity |].
  apply (proj2 (getGeolocationErrorMessage_injective
                  (mkPositionError 3) (mkPositionError 3))).
Defined.
End LocationFacts.

Section LocationGateFacts.
Import JsNumber Geolocation UseGeolocation LocationGate.

(** X11. A check started from a render without a stored position never
    calls [onLocationVerified], also when the device answers with a
    position inside the geofence; and what a check passes to
    [onLocationVerified] is the position stored before it, while the
    position the device has just given is the one tested against the
    geofence. *)
Theorem handleCheckLocation_reports_previous_position :
  forall (navigator : Navigator) (r : State),
    let calls := snd (handleCheckLocation navigator r) in
    (coordinates (location r) = None -> calls = []) /\
    (forall reported,
       In reported calls ->
       calls = [reported] /\
       coordinates (location r) = Some reported /\
       exists position,
         getCurrentPosition navigator = inr position /\
         isPointInPolygon position (geofence r) = true /\
         coordinates (location (fst (handleCheckLocation navigator r)))
         = Some position).
Proof.
  intros navigator r. unfold handleCheckLocation, checkLocation.
  destruct (getCurrentPosition navigator) as [rejection | position];
    cbn [fst snd].
  - split; [intros Hnone; now rewrite Hnone |].
    intros reported Hrep.
    destruct (coordinates (location r)); contradiction.
  - split; [intros Hnone; now rewrite Hnone |].
    intros reported Hrep.
    destruct (coordinates (location r)) as [c |]; [| contradiction].
    destruct (isPointInPolygon position (geofence r)) eqn:Hinside;
      [| contradiction].
    destruct Hrep as [<- | []].
    split; [reflexivity |]. split; [reflexivity |].
    exists position. repeat split. exact Hinside.
Qed.

Lemma handleCheckLocation_reports_previous_position_witness :
  let navigator :=
    mkNavigator (Some (fun _ => inr (mkCoordinates 5 5))) in
  let r := initialState Samples.square in
  coordinates (location r) = None /\
  snd (handleCheckLocation navigator r) = [] /\
  isInsideGeofence (location (fst (handleCheckLocation navigator r)))
  = Some (isPointInPolygon (mkCoordinates 5 5) Samples.square).
Proof.
  split; [reflexivity |]. split.
  - apply (proj1 (handleCheckLocation_reports_previous_position _ _)).
    reflexivity.
  - reflexivity.
Defined.

(** [checkLocation] is its part before the [await], followed by its
    part after it on the answer of the device. *)
Lemma checkLocation_split (navigator : Navigator)
    (g : list GeofencePolygon) (s : HookState) :
  checkLocation navigator g s
  = GateSession.checkLocation_finish (getCurrentPosition navigator) g
      (GateSession.checkLocation_start s).
Proof.
  unfold checkLocation, GateSession.checkLocation_finish,
    GateSession.checkLocation_start.
  destruct (getCurrentPosition navigator); reflexivity.
Qed.
End LocationGateFacts.

Section GateSessionFacts.
Import JsNumber Geolocation UseGeolocation LocationGate GateSession.
Local Open Scope nat_scope.
Local Open Scope list_scope.

(** A press that is answered before anything else happens is one run
    of [handleCheckLocation]. *)
Lemma step_pair_is_handleCheckLocation (navigator : Navigator)
    (w : Session) :
  in_flight w = [] -> check_button (gate w) = true ->
  let w' := run [Press; Answer 0 (getCurrentPosition navigator)] w in
  gate w' = fst (handleCheckLocation navigator (gate w)) /\
  in_flight w' = [] /\
  reports w'
  = reports w
    ++ map (fun c => mkReport c (getCurrentPosition navigator) (delivered w))
         (snd (handleCheckLocation navigator (gate w))).
Proof.
  intros Hnone Hbutton. unfold run. cbn [fold_left step].
  rewrite Hbutton, Hnone. cbn [app nth_error in_flight check_geofence
    check_coordinates gate location geofence delivered reports firstn skipn].
  unfold handleCheckLocation. rewrite checkLocation_split.
  destruct (checkLocation_finish (getCurrentPosition navigator)
              (geofence (gate w)) (checkLocation_start (location (gate w))))
    as [location' inside].
  cbn [fst snd gate in_flight reports]. repeat split.
Qed.

Lemma Forall_remove_nth {A : Type} (P : A -> Prop) (k : nat) (l : list A) :
  Forall P l -> Forall P (firstn k l ++ skipn (S k) l).
Proof.
  intros H. revert k.
  induction H as [| x l Hx Hl IH]; intros [| k]; cbn; try constructor; auto.
Qed.

Lemma step_traced (g : list GeofencePolygon) (w : Session) (e : Event) :
  traced g w -> traced g (step w e).
Proof.
  intros (Hg & Hstored & Hflight & Hreports).
  destruct e as [| k outcome]; cbn [step].
  - destruct (check_button (gate w)); [| repeat split; assumption].
    unfold traced. cbn [gate in_flight delivered reports geofence location].
    split; [exact Hg |]. split; [exact Hstored |].
    split; [| exact Hreports].
    apply Forall_app. split; [exact Hflight |].
    constructor; [| constructor]. cbn. split; [exact Hg | exact Hstored].
  - destruct (nth_error (in_flight w) k) as [check |] eqn:Hk;
      [| repeat split; assumption].
    apply nth_error_In in Hk.
    pose proof (proj1 (Forall_forall _ _) Hflight check Hk)
      as [Hcg Hcc].
    unfold checkLocation_finish.
    destruct outcome as [rejection | position];
      unfold traced;
      cbn [gate in_flight delivered reports geofence location coordinates
           setIsLoading setError setCoordinates setIsInsideGeofence].
    + split; [exact Hg |]. split; [exact Hstored |].
      split; [now apply Forall_remove_nth |].
      destruct (check_coordinates check); cbn [map];
        now rewrite app_nil_r.
    + split; [exact Hg |]. split.
      { intros c Hc. injection Hc as <-. apply in_or_app. right. now left. }
      split.
      { apply Forall_remove_nth.
        eapply Forall_impl; [| exact Hflight].
        intros ch [Hchg Hchc]. split; [exact Hchg |].
        intros c Hc. apply in_or_app. left. now apply Hchc. }
      apply Forall_app. split; [exact Hreports |].
      destruct (check_coordinates check) as [c |] eqn:Hc; [| constructor].
      destruct (isPointInPolygon position (check_geofence check)) eqn:Hin;
        [| constructor].
      constructor; [| constructor].
      unfold sound_report. cbn [passed led_by delivered_before].
      split; [now apply Hcc |].
      exists position. split; [reflexivity |]. now rewrite <- Hcg.
Qed.

Lemma run_traced (g : list GeofencePolygon) (events : list Event) :
  forall w : Session, traced g w -> traced g (run events w).
Proof.
  unfold run. induction events as [| e events IH]; intros w Hw;
    cbn [fold_left]; [exact Hw |].
  apply IH. now apply step_traced.
Qed.

Lemma pair_settled (g : list GeofencePolygon)
    (outcome : Rejection + Coordinates) (w : Session) :
  settled g w -> settled g (step (step w Press) (Answer 0 outcome)).
Proof.
  intros (Hflight & Hg & (Hverdict & Hnone & Hinside) & Hreports).
  cbn [step].
  destruct (check_button (gate w)) eqn:Hbutton.
  2:{ cbn [step]. rewrite Hflight. cbn [nth_error].
      repeat split; assumption. }
  cbn [step in_flight]. rewrite Hflight.
  cbn [app nth_error gate location geofence check_geofence check_coordinates
       delivered reports firstn skipn].
  unfold checkLocation_finish, checkLocation_start.
  destruct outcome as [rejection | position].
  - (* rejected: the error is shown, position and verdict stay *)
    unfold settled.
    cbn [in_flight gate geofence reports location].
    split; [reflexivity |]. split; [exact Hg |]. split.
    + unfold consistent. cbn. split; [exact Hverdict |].
      split; [exact Hnone |].
      intros Htrue. exfalso.
      unfold check_button in Hbutton.
      rewrite Htrue, (Hinside Htrue) in Hbutton.
      destruct (coordinates (location (gate w))) as [c |] eqn:Hc.
      * cbn in Hbutton. discriminate Hbutton.
      * rewrite (Hnone eq_refl) in Htrue. discriminate Htrue.
    + destruct (coordinates (location (gate w))); cbn [map];
        now rewrite app_nil_r.
  - (* resolved *)
    unfold settled.
    cbn [in_flight gate geofence reports location].
    split; [reflexivity |]. split; [exact Hg |]. split.
    + unfold consistent. cbn. split; [| split].
      * intros c Hc. injection Hc as <-. reflexivity.
      * discriminate.
      * reflexivity.
    + apply Forall_app. split; [exact Hreports |].
      destruct (coordinates (location (gate w))) as [c |] eqn:Hc;
        [| constructor].
      destruct (isPointInPolygon position (geofence (gate w)));
        [| constructor].
      constructor; [| constructor]. cbn [passed].
      rewrite <- Hg.
      destruct (isPointInPolygon c (geofence (gate w))) eqn:Hwas;
        [| reflexivity].
      exfalso. unfold check_button in Hbutton.
      pose proof (Hverdict c eq_refl) as Hv. rewrite Hwas in Hv.
      rewrite Hc, Hv, (Hinside Hv) in Hbutton.
      cbn in Hbutton. discriminate Hbutton.
Qed.

Lemma run_settled (g : list GeofencePolygon)
    (outcomes : list (Rejection + Coordinates)) :
  forall w : Session,
    settled g w -> settled g (run (one_at_a_time outcomes) w).
Proof.
  unfold run, one_at_a_time.
  induction outcomes as [| outcome outcomes IH]; intros w Hw;
    cbn [flat_map app fold_left]; [exact Hw |].
  apply IH. now apply pair_settled.
Qed.

(** X12. In every session of the gate, from its first render, with
    presses and answers in any order and checks that may overlap: every
    position passed to [onLocationVerified] had been delivered by the
    device before the answer that led to the call, and that answer is a
    position inside the geofence.  In the sessions in which every check
    is answered before the next press, every position passed to
    [onLocationVerified] is one that the geofence test had found
    outside the geofence. *)
Theorem gate_reports_earlier_positions :
  forall g : list GeofencePolygon,
    (forall events : list Event,
       Forall (sound_report g) (reports (run events (first_render g)))) /\
    (forall outcomes : list (Rejection + Coordinates),
       Forall (fun rep => isPointInPolygon (passed rep) g = false)
         (reports (run (one_at_a_time outcomes) (first_render g)))).
Proof.
  intros g. split.
  - intros events.
    apply (run_traced g events (first_render g)).
    unfold traced, first_render. cbn.
    repeat split; try constructor. discriminate.
  - intros outcomes.
    apply (run_settled g outcomes (first_render g)).
    unfold settled, first_render, consistent. cbn.
    repeat split; try constructor; try discriminate.
Qed.

(** A call does happen in a session that runs one check at a time: on
    the square, a first answer (20,20), outside, then a second answer
    (5,5), inside, make the component pass (20,20). *)
Lemma one_at_a_time_example :
  map passed
    (reports (run (one_at_a_time [inr (mkCoordinates 20 20);
                                  inr (mkCoordinates 5 5)])
                (first_render Samples.square)))
  = [mkCoordinates 20 20].
Proof.
  unfold run, one_at_a_time, first_render.
  cbn -[isPointInPolygon]. rewrite square_excludes_far.
  cbn -[isPointInPolygon]. rewrite square_contains_centre. reflexivity.
Qed.

(** With overlapping checks a position found inside can be passed: after
    a first position (20,20), two presses on Check Again; the first is
    answered with (5,5), inside, the second is rejected, which shows the
    error with its Try Again button; the check started there is
    answered with (5,5) and passes the stored (5,5). *)
Lemma overlapping_checks_example :
  map passed
    (reports
       (run [Press; Answer 0 (inr (mkCoordinates 20 20));
             Press; Press;
             Answer 0 (inr (mkCoordinates 5 5));
             Answer 0 (inl (RejectedPositionError (mkPositionError 3)));
             Press; Answer 0 (inr (mkCoordinates 5 5))]
          (first_render Samples.square)))
  = [mkCoordinates 20 20; mkCoordinates 5 5].
Proof.
  unfold run, first_render.
  cbn -[isPointInPolygon]. rewrite square_excludes_far.
  cbn -[isPointInPolygon]. rewrite !square_contains_centre. reflexivity.
Qed.
End GateSessionFacts.

(* ================================================================= *)
(** * Properties of the booking flow *)

Section BookingSessionFacts.
Import JsNumber Geolocation BookingFlow BookingSession.
Local Open Scope string_scope.
Local Open Scope nat_scope.
Local Open Scope list_scope.

(** X13. A pickup is accepted exactly when it is inside the geofence:
    then it is stored and the flow moves to the drop-off step with no
    alert.  Otherwise the alert is shown and nothing else changes.  In
    particular, with a geofence of fewer than three vertices every
    pickup is refused. *)
Theorem handlePickupSelect_gate :
  forall (coords : Coordinates) (w : World),
    let w' := handlePickupSelect coords w in
    (isPointInPolygon coords (geofence (flow w)) = true ->
     pickupLocation (flow w') = Some coords /\
     step (flow w') = dropoff /\ alerts w' = alerts w) /\
    (isPointInPolygon coords (geofence (flow w)) = false ->
     flow w' = flow w /\
     alerts w' = alerts w ++ ["Pickup must be inside Pilar Village"]) /\
    (length (geofence (flow w)) < 3 -> flow w' = flow w).
Proof.
  intros coords w w'. subst w'. unfold handlePickupSelect.
  split; [| split].
  - intros H. rewrite H. cbn. repeat split.
  - intros H. rewrite H. cbn. repeat split.
  - intros Hlen. unfold isPointInPolygon.
    apply Nat.ltb_lt in Hlen. rewrite Hlen. reflexivity.
Qed.

Lemma handlePickupSelect_gate_witness :
  let w := initialWorld [] [] in
  length (geofence (flow w)) < 3 /\
  flow (handlePickupSelect (mkCoordinates 14.426 120.988) w) = flow w.
Proof.
  split; [cbn; lia |].
  apply (proj2 (proj2 (handlePickupSelect_gate _ _))). cbn; lia.
Defined.

Ltac open_world w :=
  destruct w as [[st pk dr ss tt fr gf sts] phone bid drv al ins dc].

Ltac run_handlers :=
  unfold handler, handlePickupSelect, selectDropoff, handleDropoffSelect,
    handleBack, handleConfirmBooking, handleNewBooking, on_update;
  cbn -[calculateFare calculateDistance isPointInPolygon find truthy
        fetch_driver status_eqb or_null station_id_or_null].

Ltac split_cases :=
  repeat match goal with
    | |- context [negb (isPointInPolygon ?c ?g)] =>
        destruct (isPointInPolygon c g) eqn:?; cbn [negb]
    | |- context [if isPointInPolygon ?c ?g then _ else _] =>
        destruct (isPointInPolygon c g) eqn:?
    | |- context [if truthy ?x then _ else _] => destruct (truthy x) eqn:?
    | |- context [match find ?f ?l with _ => _ end] => destruct (find f l) eqn:?
    | |- context [match insert_booking ?db ?r with _ => _ end] =>
        destruct (insert_booking db r) eqn:?
    | |- context [match fetch_driver ?db ?k with _ => _ end] =>
        destruct (fetch_driver db k) eqn:?
    | |- context [if ?a && ?b then _ else _] => destruct (a && b) eqn:?
    | |- context [if status_eqb ?a ?b then _ else _] =>
        destruct (status_eqb a b) eqn:?
    end;
  cbn -[calculateFare calculateDistance isPointInPolygon find truthy
        fetch_driver status_eqb or_null station_id_or_null].

Lemma handler_base (db : Supabase) (g : list GeofencePolygon)
    (e : Event) (w : World) :
  base g (flow w) -> base g (flow (handler db e w)).
Proof.
  open_world w. unfold base. cbn [flow geofence pickupLocation dropoffLocation step].
  intros (Hg & Hpick & Hstep1 & Hstep2). subst gf.
  destruct e as [coords | station | | | | booking]; destruct st;
    try destruct pk as [p0 |]; try destruct dr as [d0 |];
    try destruct bid as [b0 |];
    run_handlers; split_cases;
    repeat split; auto; try discriminate;
    try (intros p Hp; injection Hp as <-; auto);
    try (intros [H | H]; discriminate H);
    try (intros _; discriminate);
    try (intros H; discriminate H).
  all: try (exfalso; apply Hstep1; auto; fail).
  all: try (exfalso; apply Hstep2; auto; fail).
Qed.

Lemma well_formed_split (g : list GeofencePolygon) (w : World) :
  well_formed g w <-> base g (flow w) /\ fare_ok (flow w).
Proof. unfold well_formed, base, fare_ok. tauto. Qed.

Lemma fare_effect_base (g : list GeofencePolygon) (s : State) :
  base g s -> base g (fare_effect s).
Proof.
  unfold fare_effect.
  destruct (pickupLocation s) eqn:Hp, (dropoffLocation s) eqn:Hd; auto.
Qed.

Lemma fare_effect_ok (s : State) : fare_ok (fare_effect s).
Proof.
  unfold fare_effect, fare_ok.
  destruct (pickupLocation s) as [p0 |] eqn:Hp,
           (dropoffLocation s) as [d0 |] eqn:Hd;
    cbn -[calculateFare calculateDistance];
    rewrite ?Hp, ?Hd; intros p d Hp' Hd'; try discriminate.
  injection Hp' as <-. injection Hd' as <-. reflexivity.
Qed.

(** A handler that sets none of the dependencies of the fare effect
    leaves them, and the fare, as they were. *)
Lemma handler_untouched (db : Supabase) (e : Event) (w : World) :
  deps_changed w = false ->
  deps_changed (handler db e w) = false ->
  fare_ok (flow w) -> fare_ok (flow (handler db e w)).
Proof.
  open_world w. unfold fare_ok.
  cbn [flow deps_changed pickupLocation dropoffLocation fare tripType].
  intros -> Hdeps Hfare. revert Hdeps.
  destruct e as [coords | station | | | | booking]; destruct st;
    try destruct bid as [b0 |];
    run_handlers; split_cases; try discriminate; auto.
  all: destruct pk as [p0 |]; try destruct dr as [d0 |];
    cbn -[calculateFare calculateDistance]; split_cases; auto.
Qed.

Lemma handler_inserts (db : Supabase) (g : list GeofencePolygon)
    (e : Event) (w : World) :
  base g (flow w) -> fare_ok (flow w) ->
  exists sent,
    inserts (handler db e w) = inserts w ++ sent /\
    Forall (sound_request g) sent.
Proof.
  open_world w. unfold base, fare_ok.
  cbn [flow geofence pickupLocation dropoffLocation step fare tripType inserts].
  intros (Hg & Hpick & _) Hfare. subst gf.
  assert (Hnone : exists sent : list BookingInsert,
             ins = ins ++ sent /\ Forall (sound_request g) sent).
  { exists []. rewrite app_nil_r. split; [reflexivity | constructor]. }
  destruct e as [coords | station | | | | booking]; destruct st;
    try destruct bid as [b0 |];
    run_handlers; split_cases; try exact Hnone.
  all: destruct pk as [p0 |]; try destruct dr as [d0 |];
    cbn -[calculateFare calculateDistance isPointInPolygon or_null
          station_id_or_null]; split_cases; try exact Hnone.
  all: eexists; split; [reflexivity |]; constructor; [| constructor];
    unfold sound_request;
    cbn -[calculateFare calculateDistance isPointInPolygon];
    (split; [reflexivity |]); split.
  all: try (destruct p0; apply Hpick; reflexivity).
  all: destruct p0, d0; apply Hfare; reflexivity.
Qed.

Lemma dispatch_well_formed (db : Supabase) (g : list GeofencePolygon)
    (w : World) (e : Event) :
  well_formed g w ->
  well_formed g (dispatch db w e) /\
  exists sent,
    inserts (dispatch db w e) = inserts w ++ sent /\
    Forall (sound_request g) sent.
Proof.
  rewrite !well_formed_split. intros [Hbase Hfare].
  unfold dispatch.
  set (w0 := mkWorld (flow w) (customerPhone w) (bookingId w)
               (assignedDriver w) (alerts w) (inserts w) false).
  pose proof (handler_base db g e w0 Hbase) as Hb.
  pose proof (handler_inserts db g e w0 Hbase Hfare) as Hi.
  pose proof (handler_untouched db e w0 eq_refl) as Hu.
  destruct (deps_changed (handler db e w0)) eqn:Hd.
  - split; [split |].
    + apply fare_effect_base. exact Hb.
    + apply fare_effect_ok.
    + exact Hi.
  - split; [split |]; auto.
Qed.

Lemma run_well_formed (db : Supabase) (g : list GeofencePolygon)
    (events : list Event) :
  forall w : World,
    well_formed g w ->
    well_formed g (run db events w) /\
    exists sent,
      inserts (run db events w) = inserts w ++ sent /\
      Forall (sound_request g) sent.
Proof.
  unfold run. induction events as [| e events IH]; intros w Hw; cbn [fold_left].
  - split; [exact Hw |]. exists []. rewrite app_nil_r.
    split; [reflexivity | constructor].
  - destruct (dispatch_well_formed db g w e Hw) as (Hw1 & sent1 & Hs1 & Hall1).
    destruct (IH _ Hw1) as (Hw2 & sent2 & Hs2 & Hall2).
    split; [exact Hw2 |].
    exists (sent1 ++ sent2). rewrite Hs2, Hs1, app_assoc.
    split; [reflexivity | apply Forall_app; split; assumption].
Qed.

(** X14. Whatever the user and the store do, starting from the first
    render of the flow with a loaded geofence: a stored pickup is
    inside the geofence, the fare stored with a pickup and a drop-off is
    [calculateFare] of the current trip type and of the distance from
    pickup to drop-off, the drop-off and confirmation steps have a
    pickup, and the confirmation step has a drop-off. *)
Theorem run_keeps_well_formed :
  forall (db : Supabase) (geofence : list GeofencePolygon)
         (stations : list Station) (events : list Event),
    well_formed geofence (run db events (initialWorld geofence stations)).
Proof.
  intros db g sts events.
  apply (run_well_formed db g events).
  unfold well_formed, initialWorld. cbn.
  repeat split; try discriminate. intros [H | H]; discriminate H.
Qed.

(** X15. Every insert the flow sends to the store asks for a booking
    with status [pending], a pickup inside the geofence, and the fare
    that [calculateFare] gives for its trip type and the distance from
    its pickup to its drop-off. *)
Theorem run_sends_sound_requests :
  forall (db : Supabase) (geofence : list GeofencePolygon)
         (stations : list Station) (events : list Event),
    Forall (sound_request geofence)
      (inserts (run db events (initialWorld geofence stations))).
Proof.
  intros db g sts events.
  destruct (run_well_formed db g events (initialWorld g sts))
    as (_ & sent & Hs & Hall).
  - unfold well_formed, initialWorld. cbn.
    repeat split; try discriminate. intros [H | H]; discriminate H.
  - rewrite Hs. exact Hall.
Qed.



(** X17. A booking created by the flow and then accepted from the
    driver dashboard has no driver id, so the update that the flow
    receives for it changes nothing: the flow is not moved to
    [matched]. *)
Theorem acceptBooking_does_not_match :
  forall (db : Supabase) (new_id now : string) (request : BookingInsert)
         (w : World),
    on_update db (acceptBooking now (inserted_row new_id request)) w = w.
Proof.
  intros db new_id now request w. reflexivity.
Qed.
End BookingSessionFacts.

(* ================================================================= *)
(** * Properties of editing sessions *)

Section EditorSessionFacts.
Import JsNumber GeofenceEditor GeofenceEditorSession Samples.
Local Open Scope string_scope.
Local Open Scope nat_scope.
Local Open Scope list_scope.

(** X18. Cancel puts the baseline back as the current vertices, leaves
    the editing mode, keeps the baseline and the geofence record, and
    shows no message; with a baseline that is not empty the dirty flag
    is then down. *)
Theorem handleCancel_restores_baseline :
  forall s : EditorState,
    let u := render_cycle (handleCancel s) s in
    vertices (next u) = originalVertices s /\
    originalVertices (next u) = originalVertices s /\
    geofence (next u) = geofence s /\
    isEditing (next u) = false /\
    shown u = [] /\
    (originalVertices s <> [] -> hasChanges (next u) = false).
Proof.
  intros s u.
  pose proof (render_cycle_fields (handleCancel s) s) as F. cbn zeta in F.
  change (render_cycle (handleCancel s) s) with u in F.
  destruct F as (Hg & Hv & Ho & He & _ & Hs & Hd).
  assert (vertices (next u) = originalVertices s) as Hv' by exact Hv.
  assert (originalVertices (next u) = originalVertices s) as Ho' by exact Ho.
  split; [exact Hv' |]. split; [exact Ho' |]. split; [exact Hg |].
  split; [exact He |]. split; [exact Hs |].
  intros Hne.
  pose proof (render_cycle_dirty (handleCancel s) s) as Hdirty.
  cbn zeta in Hdirty.
  change (render_cycle (handleCancel s) s) with u in Hdirty.
  rewrite Hv', Ho' in Hdirty.
  destruct (hasChanges (next u)); [| reflexivity].
  exfalso. now apply (proj1 (Hdirty Hd Hne)).
Qed.

Lemma handleCancel_restores_baseline_witness :
  originalVertices editing_quad <> [] /\
  hasChanges (next (render_cycle (handleCancel editing_quad) editing_quad))
  = false.
Proof.
  assert (originalVertices editing_quad <> []) as H by discriminate.
  split; [exact H |].
  now apply (handleCancel_restores_baseline editing_quad).
Defined.

(** ** Vertex counts *)

Lemma array_set_length (l : list GeofencePoint) (index : nat)
    (p : GeofencePoint) :
  length (array_set l index p) = length l.
Proof.
  revert index. induction l as [| v l IH]; intros [| index]; cbn; auto.
Qed.

Lemma array_set_same (l : list GeofencePoint) (index : nat)
    (p : GeofencePoint) :
  index < length l -> nth_error (array_set l index p) index = Some p.
Proof.
  revert index. induction l as [| v l IH]; intros [| index] Hi; cbn in *;
    try lia; auto. apply IH. lia.
Qed.

Lemma array_set_other (l : list GeofencePoint) (index k : nat)
    (p : GeofencePoint) :
  k <> index -> nth_error (array_set l index p) k = nth_error l k.
Proof.
  revert index k. induction l as [| v l IH]; intros [| index] [| k] Hk;
    cbn; auto; try lia.
Qed.

Lemma apply_edit_vertices (s : EditorState) (e : EditOp) :
  vertices (apply_edit s e)
  = vertices (next (perform_edit e s (mkUpdate s [] false))) /\
  isEditing (apply_edit s e) = isEditing s.
Proof.
  unfold apply_edit.
  destruct (render_cycle_fields (perform_edit e s) s)
    as (_ & Hv & _ & He & _).
  split; [exact Hv |]. rewrite He.
  destruct e as [pos | index pos | index |]; cbn [perform_edit].
  - unfold PolygonEditor_click. cbn [polygonEditorProps props_isEditing].
    destruct (isEditing s) eqn:E; cbn; auto.
  - destruct (marker_rendered _ _); reflexivity.
  - destruct (marker_rendered _ _); [| reflexivity].
    unfold PolygonEditor_contextmenu. destruct (3 <? _); reflexivity.
  - reflexivity.
Qed.

Lemma apply_edit_count (s : EditorState) (e : EditOp) :
  is_clearAll e = false ->
  3 <= length (vertices s) ->
  3 <= length (vertices (apply_edit s e)).
Proof.
  intros Hclear Hlen.
  rewrite (proj1 (apply_edit_vertices s e)).
  destruct e as [pos | index pos | index |]; cbn [perform_edit];
    [| | | discriminate Hclear].
  - unfold PolygonEditor_click. cbn [polygonEditorProps props_isEditing].
    destruct (isEditing s); cbn; [rewrite length_app; cbn; lia | exact Hlen].
  - destruct (marker_rendered _ _); cbn; [| exact Hlen].
    now rewrite array_set_length.
  - destruct (marker_rendered _ _); [| exact Hlen].
    unfold PolygonEditor_contextmenu.
    cbn [polygonEditorProps props_vertices onVertexRemove].
    destruct (3 <? length (vertices s)) eqn:Hmore; [| exact Hlen].
    apply Nat.ltb_lt in Hmore. cbn.
    rewrite Array_filter_removes, length_app, length_firstn, length_skipn.
    lia.
Qed.

(** X19. Clicks, drags and context menus never take a polygon below a
    triangle: after any sequence of additions, moves and removals that
    starts with at least three vertices, there are at least three
    vertices. *)
Theorem apply_edits_keep_triangle :
  forall (es : list EditOp) (s : EditorState),
    forallb (fun e => negb (is_clearAll e)) es = true ->
    3 <= length (vertices s) ->
    3 <= length (vertices (apply_edits es s)).
Proof.
  unfold apply_edits.
  induction es as [| e es IH]; intros s Hes Hlen; cbn [fold_left].
  - exact Hlen.
  - cbn [forallb] in Hes. apply andb_true_iff in Hes as [He Hes].
    apply negb_true_iff in He.
    apply IH; [exact Hes |]. now apply apply_edit_count.
Qed.

Lemma apply_edits_keep_triangle_witness :
  let es := [removeVertex 0; addVertex v4; removeVertex 1; removeVertex 0;
             moveVertex 2 v4; removeVertex 2] in
  forallb (fun e => negb (is_clearAll e)) es = true /\
  3 <= length (vertices editing_triangle) /\
  3 <= length (vertices (apply_edits es editing_triangle)).
Proof.
  split; [reflexivity |]. split; [cbn; lia |].
  apply apply_edits_keep_triangle; [reflexivity | cbn; lia].
Defined.

(** X20. In editing mode, adding a vertex and then removing it through
    the context menu of its marker gives back the vertices there were,
    provided there were at least three; with two vertices or fewer the
    vertex just added cannot be removed again. *)
Theorem addVertex_removeVertex_round_trip :
  forall (s : EditorState) (pos : GeofencePoint),
    isEditing s = true ->
    let s' := apply_edits [addVertex pos; removeVertex (length (vertices s))] s in
    (3 <= length (vertices s) -> vertices s' = vertices s) /\
    (length (vertices s) <= 2 -> vertices s' = vertices s ++ [pos]).
Proof.
  intros s pos Hedit s'. subst s'. unfold apply_edits. cbn [fold_left].
  set (s1 := apply_edit s (addVertex pos)).
  assert (vertices s1 = vertices s ++ [pos] /\ isEditing s1 = true)
    as [Hv1 He1].
  { destruct (apply_edit_vertices s (addVertex pos)) as [Hv He].
    fold s1 in Hv, He. rewrite Hv, He. split; [| exact Hedit].
    cbn [perform_edit]. unfold PolygonEditor_click.
    cbn [polygonEditorProps props_isEditing]. rewrite Hedit. reflexivity. }
  rewrite (proj1 (apply_edit_vertices s1 _)). cbn [perform_edit].
  unfold marker_rendered, PolygonEditor_contextmenu.
  cbn [polygonEditorProps props_isEditing props_vertices onVertexRemove].
  rewrite He1, Hv1, length_app. cbn [length andb].
  replace (length (vertices s) <? length (vertices s) + 1) with true
    by (symmetry; apply Nat.ltb_lt; lia).
  split; intros Hlen.
  - replace (3 <? length (vertices s) + 1) with true
      by (symmetry; apply Nat.ltb_lt; lia).
    cbn. rewrite Hv1, Array_filter_removes.
    rewrite firstn_app, Nat.sub_diag, firstn_all. cbn [firstn].
    rewrite skipn_all2 by (rewrite length_app; cbn; lia).
    now rewrite !app_nil_r.
  - replace (3 <? length (vertices s) + 1) with false
      by (symmetry; apply Nat.ltb_ge; lia).
    cbn. exact Hv1.
Qed.

Lemma addVertex_removeVertex_round_trip_witness :
  isEditing editing_triangle = true /\
  3 <= length (vertices editing_triangle) /\
  vertices (apply_edits [addVertex v4;
                         removeVertex (length (vertices editing_triangle))]
              editing_triangle)
  = vertices editing_triangle.
Proof.
  split; [reflexivity |]. split; [cbn; lia |].
  apply (proj1 (addVertex_removeVertex_round_trip editing_triangle v4 eq_refl)).
  cbn; lia.
Defined.

(** X21. Dragging the marker of a vertex replaces that vertex and no
    other: the number of vertices is the same, the vertex at the index
    is the new position, every other index holds what it held.  A drag
    for which no marker is rendered (not editing, or an index that is
    not under the length) changes no vertex. *)
Theorem moveVertex_replaces_one :
  forall (s : EditorState) (index : nat) (pos : GeofencePoint),
    let s' := apply_edit s (moveVertex index pos) in
    (isEditing s = true -> index < length (vertices s) ->
     length (vertices s') = length (vertices s) /\
     nth_error (vertices s') index = Some pos /\
     forall k, k <> index ->
               nth_error (vertices s') k = nth_error (vertices s) k) /\
    (isEditing s = false \/ length (vertices s) <= index ->
     vertices s' = vertices s).
Proof.
  intros s index pos s'. subst s'.
  rewrite (proj1 (apply_edit_vertices s _)). cbn [perform_edit].
  unfold marker_rendered.
  cbn [polygonEditorProps props_isEditing props_vertices].
  split.
  - intros Hedit Hindex. rewrite Hedit.
    pose proof Hindex as Hlt. apply Nat.ltb_lt in Hlt. rewrite Hlt.
    cbn. split; [apply array_set_length |].
    split; [now apply array_set_same |].
    intros k Hk. now apply array_set_other.
  - intros [Hview | Hout].
    + rewrite Hview. reflexivity.
    + apply Nat.ltb_ge in Hout. rewrite Hout, andb_false_r. reflexivity.
Qed.

Lemma moveVertex_replaces_one_witness :
  isEditing editing_triangle = true /\
  1 < length (vertices editing_triangle) /\
  nth_error (vertices (apply_edit editing_triangle (moveVertex 1 v4))) 1
  = Some v4.
Proof.
  split; [reflexivity |]. split; [cbn; lia |].
  apply (proj1 (moveVertex_replaces_one editing_triangle 1 v4)
           eq_refl ltac:(cbn; lia)).
Defined.

(** ** The dirty flag along a session *)

Lemma apply_op_dirty (db : Supabase) (s : EditorState) (o : Op) :
  (originalVertices s <> [] ->
   (hasChanges s = true <-> vertices s <> originalVertices s)) ->
  originalVertices (apply_op db s o) <> [] ->
  (hasChanges (apply_op db s o) = true <->
   vertices (apply_op db s o) <> originalVertices (apply_op db s o)).
Proof.
  intros Hs. unfold apply_op.
  pose proof (render_cycle_dirty (perform db o s) s) as Hdirty.
  cbn zeta in Hdirty.
  destruct (deps_changed (render_cycle (perform db o s) s)) eqn:Hd.
  - exact (Hdirty eq_refl).
  - clear Hdirty. revert Hd. unfold render_cycle.
    destruct (deps_changed (perform db o s (mkUpdate s [] false))) eqn:Hp;
      cbn [deps_changed next]; [discriminate |].
    intros _.
    destruct (perform_untouched db o s Hp) as [Hv Ho].
    rewrite Hv, Ho, perform_keeps_hasChanges. exact Hs.
Qed.

(** X22. From the first render of the editor and through any sequence
    of operations (loading, entering the editing mode, adding, moving,
    removing, clearing, resetting, cancelling, saving), whenever the
    baseline is not empty the dirty flag is up exactly when the current
    vertices differ from the baseline. *)
Theorem apply_ops_dirty_flag :
  forall (db : Supabase) (os : list Op),
    let s := apply_ops db os initialState in
    originalVertices s <> [] ->
    (hasChanges s = true <-> vertices s <> originalVertices s).
Proof.
  intros db os. cbn zeta. unfold apply_ops.
  assert (Hinit : originalVertices initialState <> [] ->
            (hasChanges initialState = true <->
             vertices initialState <> originalVertices initialState)).
  { intros H. now contradiction H. }
  revert Hinit. generalize initialState.
  induction os as [| o os IH]; intros s Hs; cbn [fold_left].
  - exact Hs.
  - apply IH. now apply apply_op_dirty.
Qed.

Lemma apply_ops_dirty_flag_witness :
  let s := apply_ops db_ok [load; enterEdit; edit (addVertex v4)]
             initialState in
  originalVertices s <> [] /\
  (hasChanges s = true <-> vertices s <> originalVertices s).
Proof.
  cbn zeta. split; [discriminate |].
  apply (apply_ops_dirty_flag db_ok [load; enterEdit; edit (addVertex v4)]).
  discriminate.
Defined.

(** ** Saving *)

(** Operations other than a save and a load keep the baseline. *)
Lemma apply_op_keeps_baseline (db : Supabase) (s : EditorState) (o : Op) :
  is_save_or_load o = false ->
  originalVertices (apply_op db s o) = originalVertices s.
Proof.
  intros Ho. unfold apply_op.
  destruct (render_cycle_fields (perform db o s) s) as (_ & _ & Hb & _).
  rewrite Hb. clear Hb.
  destruct o as [e | | | | |]; cbn [perform]; try reflexivity;
    try discriminate Ho.
  destruct e as [pos | index pos | index |]; cbn [perform_edit].
  - unfold PolygonEditor_click. cbn [polygonEditorProps props_isEditing].
    destruct (isEditing s); reflexivity.
  - destruct (marker_rendered _ _); reflexivity.
  - destruct (marker_rendered _ _); [| reflexivity].
    unfold PolygonEditor_contextmenu. destruct (3 <? _); reflexivity.
  - reflexivity.
Qed.

Lemma apply_ops_keeps_baseline (db : Supabase) (os : list Op)
    (s : EditorState) :
  forallb (fun o => negb (is_save_or_load o)) os = true ->
  originalVertices (apply_ops db os s) = originalVertices s.
Proof.
  unfold apply_ops. revert s.
  induction os as [| o os IH]; intros s Hos; cbn [fold_left].
  - reflexivity.
  - cbn [forallb] in Hos. apply andb_prop in Hos as [Ho Hos].
    rewrite (IH _ Hos). apply apply_op_keeps_baseline.
    now apply negb_true_iff in Ho.
Qed.

(** A save that the store accepts, with the operations [during] taking
    place while its call is pending. *)
Lemma save_run_accepted (db : Supabase) (during : list Op)
    (s : EditorState) (g : GeofenceData) :
  geofence s = Some g -> 3 <= length (vertices s) ->
  update_polygon db (id g) (vertices s) = None ->
  let s1 := final (save_run db during s) in
  originalVertices s1 = vertices s /\
  isEditing s1 = false /\
  vertices s1 = vertices (state_at_answer db during (setIsSaving true) s) /\
  (hasChanges s1 = true <-> vertices s1 <> vertices s).
Proof.
  intros Hg Hlen Hok s1. subst s1. unfold save_run.
  rewrite (handleSave_async_sent s g Hg Hlen). cbn [final].
  unfold answer. cbn [call_id call_polygon]. rewrite Hok.
  set (arrival := state_at_answer db during (setIsSaving true) s).
  set (h := (setIsSaving false;;
             setOriginalVertices (vertices s);;
             setIsEditing false;;
             toast (ToastSuccess "Geofence saved successfully!"))%action).
  pose proof (render_cycle_fields h arrival) as F. cbn zeta in F.
  destruct F as (_ & Hv & Ho & He & _ & _ & Hd).
  assert (originalVertices (next (render_cycle h arrival)) = vertices s)
    as Ho' by (rewrite Ho; reflexivity).
  assert (vertices (next (render_cycle h arrival)) = vertices arrival)
    as Hv' by (rewrite Hv; reflexivity).
  split; [exact Ho' |].
  split; [rewrite He; reflexivity |].
  split; [exact Hv' |].
  pose proof (render_cycle_dirty h arrival) as Hdirty. cbn zeta in Hdirty.
  rewrite Ho' in Hdirty. apply Hdirty.
  - rewrite Hd. reflexivity.
  - intros E. rewrite E in Hlen. cbn in Hlen. lia.
Qed.

(** X23. A save that the store accepts (a geofence record is loaded,
    there are at least three vertices) makes the vertices it sent the
    new point of return, also when the user goes on working while the
    call is pending: the baseline becomes the vertices sent, the
    editing mode is left, and the dirty flag is up exactly when the
    current vertices, which are those of the moment of the answer,
    differ from the vertices sent; it is down if nothing happened while
    the call was pending.  Whatever operations other than a save and a
    load follow (entering the editing mode again, additions, moves,
    removals, clears, resets, cancels), the baseline stays, and a reset
    gives back exactly the vertices sent, with the dirty flag down. *)
Theorem handleSave_then_reset :
  forall (db : Supabase) (during : list Op) (s : EditorState)
         (g : GeofenceData) (os : list Op),
    geofence s = Some g -> 3 <= length (vertices s) ->
    update_polygon db (id g) (vertices s) = None ->
    forallb (fun o => negb (is_save_or_load o)) os = true ->
    let s1 := final (save_run db during s) in
    let s2 := apply_ops db os s1 in
    originalVertices s1 = vertices s /\
    isEditing s1 = false /\
    (hasChanges s1 = true <-> vertices s1 <> vertices s) /\
    (during = [] -> vertices s1 = vertices s /\ hasChanges s1 = false) /\
    originalVertices s2 = vertices s /\
    vertices (apply_op db s2 reset) = vertices s /\
    hasChanges (apply_op db s2 reset) = false.
Proof.
  intros db during s g os Hg Hlen Hok Hos s1 s2.
  destruct (save_run_accepted db during s g Hg Hlen Hok)
    as (Ho1 & He1 & Hv1 & Hc1).
  fold s1 in Ho1, He1, Hv1, Hc1.
  assert (originalVertices s2 = vertices s) as Ho2.
  { subst s2. rewrite (apply_ops_keeps_baseline db os s1 Hos). exact Ho1. }
  split; [exact Ho1 |]. split; [exact He1 |]. split; [exact Hc1 |].
  split.
  { intros Hquiet. rewrite Hquiet in Hv1. cbn in Hv1.
    split; [exact Hv1 |].
    destruct (hasChanges s1); [| reflexivity].
    exfalso. now apply (proj1 Hc1). }
  split; [exact Ho2 |].
  unfold apply_op. cbn [perform].
  pose proof (render_cycle_fields (handleReset s2) s2) as F. cbn zeta in F.
  destruct F as (_ & Hv & Ho & _ & _ & _ & Hd).
  assert (vertices (next (render_cycle (handleReset s2) s2)) = vertices s)
    as Hv' by (rewrite Hv; cbn; exact Ho2).
  assert (originalVertices (next (render_cycle (handleReset s2) s2))
          = vertices s) as Ho' by (rewrite Ho; cbn; exact Ho2).
  split; [exact Hv' |].
  pose proof (render_cycle_dirty (handleReset s2) s2) as Hdirty.
  cbn zeta in Hdirty. rewrite Hv', Ho' in Hdirty.
  assert (vertices s <> []) as Hne
    by (intros E; rewrite E in Hlen; cbn in Hlen; lia).
  destruct (hasChanges (next (render_cycle (handleReset s2) s2)));
    [| reflexivity].
  exfalso. apply (proj1 (Hdirty Hd Hne)); reflexivity.
Qed.

Lemma handleSave_then_reset_witness :
  let os := [enterEdit; edit (addVertex v2); edit clearAll;
             edit (addVertex v3)] in
  let s1 := final (save_run db_ok [edit (addVertex v1)] editing_quad) in
  let s2 := apply_ops db_ok os s1 in
  geofence editing_quad = Some pilar /\
  3 <= length (vertices editing_quad) /\
  update_polygon db_ok (id pilar) (vertices editing_quad) = None /\
  forallb (fun o => negb (is_save_or_load o)) os = true /\
  isEditing s2 = true /\
  vertices s2 = [v3] /\
  vertices (apply_op db_ok s2 reset) = [v1; v2; v3; v4].
Proof.
  cbn zeta.
  assert (3 <= length (vertices editing_quad)) as Hquad by (cbn; lia).
  split; [reflexivity |]. split; [exact Hquad |].
  split; [reflexivity |]. split; [reflexivity |].
  split; [reflexivity |]. split; [reflexivity |].
  apply (handleSave_then_reset db_ok [edit (addVertex v1)] editing_quad pilar
           [enterEdit; edit (addVertex v2); edit clearAll;
            edit (addVertex v3)]
           eq_refl Hquad eq_refl eq_refl).
Defined.

(** A click on the map while the call of a save is pending: the store
    holds the four vertices sent, the editor is back in viewing mode
    with the fifth vertex on its map, and the dirty flag is up. *)
Lemma save_run_click_while_pending_example :
  let run := save_run db_ok [edit (addVertex v1)] editing_quad in
  store_calls run = [mkStoreCall "g-1" [v1; v2; v3; v4]] /\
  originalVertices (final run) = [v1; v2; v3; v4] /\
  vertices (final run) = [v1; v2; v3; v4; v1] /\
  isEditing (final run) = false /\
  hasChanges (final run) = true.
Proof.
  cbn zeta.
  assert (3 <= length (vertices editing_quad)) as Hquad by (cbn; lia).
  destruct (save_run_accepted db_ok [edit (addVertex v1)] editing_quad pilar
              eq_refl Hquad eq_refl) as (Ho & He & Hv & Hc).
  split; [reflexivity |]. split; [exact Ho |].
  split; [reflexivity |]. split; [exact He |].
  apply (proj2 Hc). rewrite Hv. discriminate.
Qed.

(** X24. The baseline is replaced by a successful save and by a load,
    and by nothing else: if an operation other than a load leaves a
    baseline different from the one before, the operation is a save, a
    geofence record is loaded, the store accepted the current vertices,
    these are at least three, and they are the new baseline. *)
Theorem baseline_changes_only_by_save :
  forall (db : Supabase) (s : EditorState) (o : Op),
    o <> load ->
    originalVertices (apply_op db s o) <> originalVertices s ->
    o = save /\
    3 <= length (vertices s) /\
    originalVertices (apply_op db s o) = vertices s /\
    exists g, geofence s = Some g /\
              update_polygon db (id g) (vertices s) = None.
Proof.
  intros db s o Hload. unfold apply_op.
  destruct (render_cycle_fields (perform db o s) s) as (_ & _ & Ho & _).
  rewrite Ho. clear Ho.
  destruct o as [e | | | | |]; cbn [perform];
    try (intros Hdiff; exfalso; apply Hdiff; reflexivity);
    [| | contradiction].
  - intros Hdiff. exfalso. apply Hdiff.
    destruct e as [pos | index pos | index |]; cbn [perform_edit].
    + unfold PolygonEditor_click. cbn [polygonEditorProps props_isEditing].
      destruct (isEditing s); reflexivity.
    + destruct (marker_rendered _ _); reflexivity.
    + destruct (marker_rendered _ _); [| reflexivity].
      unfold PolygonEditor_contextmenu. destruct (3 <? _); reflexivity.
    + reflexivity.
  - rewrite handleSave_unfold.
    destruct (geofence s) as [g |] eqn:Hg;
      [| intros Hdiff; exfalso; apply Hdiff; reflexivity].
    destruct (length (vertices s) <? 3) eqn:Hlen;
      [intros Hdiff; exfalso; apply Hdiff; reflexivity |].
    destruct (update_polygon db (id g) (vertices s)) eqn:Hup;
      [intros Hdiff; exfalso; apply Hdiff; reflexivity |].
    intros _. apply Nat.ltb_ge in Hlen.
    split; [reflexivity |]. split; [exact Hlen |]. split; [reflexivity |].
    exists g. split; [reflexivity | exact Hup].
Qed.

Lemma baseline_changes_only_by_save_witness :
  save <> load /\
  originalVertices (apply_op db_ok editing_quad save)
  <> originalVertices editing_quad /\
  originalVertices (apply_op db_ok editing_quad save)
  = vertices editing_quad.
Proof.
  assert (save <> load) as H1 by discriminate.
  assert (originalVertices (apply_op db_ok editing_quad save)
          <> originalVertices editing_quad) as H2 by discriminate.
  split; [exact H1 |]. split; [exact H2 |].
  apply (baseline_changes_only_by_save db_ok editing_quad save H1 H2).
Defined.

(** X25. Loading takes the polygon of the stored record as current
    vertices and as baseline and keeps the record, whatever was being
    edited; the editing mode is not touched and, if the polygon is not
    empty, the dirty flag is down.  When the store has no record named
    "Pilar Village", loading changes nothing. *)
Theorem fetchGeofence_outcomes :
  forall (db : Supabase) (s : EditorState),
    let u := render_cycle (fetchGeofence db) s in
    (forall data,
       select_geofence db "Pilar Village" = Some data ->
       geofence (next u) = Some data /\
       vertices (next u) = polygon data /\
       originalVertices (next u) = polygon data /\
       isEditing (next u) = isEditing s /\
       (polygon data <> [] -> hasChanges (next u) = false)) /\
    (select_geofence db "Pilar Village" = None -> u = mkUpdate s [] false).
Proof.
  intros db s u. subst u. unfold render_cycle, fetchGeofence. split.
  - intros data Hdata. rewrite Hdata. cbn [seq setGeofence setVertices
      setVertices_with setOriginalVertices next shown deps_changed
      geofence vertices originalVertices isEditing isSaving hasChanges].
    unfold hasChanges_effect. cbn [originalVertices vertices].
    destruct (polygon data) as [| v rest] eqn:Hpoly.
    + cbn. repeat split. intros H. now contradiction H.
    + cbn -[JSON_stringify_differs]. repeat split. intros _.
      unfold JSON_stringify_differs.
      now rewrite (proj2 (points_eqb_true_iff _ _) eq_refl).
  - intros Hnone. rewrite Hnone. reflexivity.
Qed.

Lemma fetchGeofence_outcomes_witness :
  select_geofence db_ok "Pilar Village" = Some pilar /\
  vertices (next (render_cycle (fetchGeofence db_ok) editing_quad))
  = polygon pilar.
Proof.
  split; [reflexivity |].
  apply (proj1 (fetchGeofence_outcomes db_ok editing_quad) pilar eq_refl).
Defined.

End EditorSessionFacts.
